(** * The text-overlay service and the standalone image script

    A shallow embedding of [node/server.js] (the [POST /api/image/add-text]
    route with [xmlEscape] and [addTextToImage], the upload filter and the
    error handler) and of [image-processing/node/image-processing.js].

    Conventions of the embedding.
    - A JavaScript string is a [string] that holds the bytes of its UTF-8
      encoding, the form in which Node receives a form field or an
      environment variable and writes a string to a file.  The built-ins
      that look at characters ([parseInt], [trim], a regular expression
      with a negated class) read the string character by character; a
      character of the ASCII range is one byte.  [toLowerCase] is modelled
      on the letters A to Z only.
    - A value that is either [undefined] or a string (a multipart form
      field, an environment variable) is an [option string].
    - A JavaScript number is the rational it denotes; [NaN] appears only as
      the result of [parseInt] and is [None] there.  Rounding of the two
      divisions to a double is not modelled.
    - A thrown exception is the [Throw] result of a computation, carrying
      the error's message; [try]/[catch] is a combinator on computations.
    - The image library, the marketplace SDK, the HTTP client and the file
      system are parameters of the sections that use them. *)

From Stdlib Require Import String Ascii List Bool ZArith QArith Qminmax Lia.
From Stdlib Require Import DecimalString.
Import ListNotations.

Local Open Scope string_scope.

(** ** JavaScript primitives *)

Module JS.

(** The double quote and the line feed as one-character strings. *)
Definition DQ : string := String "034" EmptyString.
Definition NL : string := String "010" EmptyString.

Definition code (c : ascii) : nat := nat_of_ascii c.

(** Characters outside the ASCII range, as their UTF-8 bytes: the
    no-break space (U+00A0), the ideographic space (U+3000), the byte
    order mark (U+FEFF), the line separator (U+2028), the letter a with a
    grave accent (U+00E0) and the grinning face (U+1F600). *)
Definition NBSP : string := String "194" (String "160" EmptyString).
Definition IDEOGRAPHIC_SPACE : string :=
  String "227" (String "128" (String "128" EmptyString)).
Definition BOM : string := String "239" (String "187" (String "191" EmptyString)).
Definition LS : string := String "226" (String "128" (String "168" EmptyString)).
Definition A_GRAVE : string := String "195" (String "160" EmptyString).
Definition GRINNING_FACE : string :=
  String "240" (String "159" (String "152" (String "128" EmptyString))).

(** Truthiness of a string-or-undefined value: [undefined] and the empty
    string are falsy. *)
Definition truthy (v : option string) : bool :=
  match v with
  | Some (String _ _) => true
  | _ => false
  end.

(** [v || d] where [d] is a string. *)
Definition orStr (v : option string) (d : string) : string :=
  match v with
  | Some (String c s) => String c s
  | _ => d
  end.

(** [v || w] where [w] may itself be undefined. *)
Definition orElse (v w : option string) : option string :=
  if truthy v then v else w.

(** [String.prototype.toLowerCase] on the Latin capital letters. *)
Definition lowerChar (c : ascii) : ascii :=
  let n := code c in
  if (65 <=? n)%nat && (n <=? 90)%nat then ascii_of_nat (n + 32) else c.

Fixpoint toLowerCase (s : string) : string :=
  match s with
  | EmptyString => EmptyString
  | String c s' => String (lowerChar c) (toLowerCase s')
  end.

(** [Array.prototype.includes] on an array of strings. *)
Fixpoint includes (l : list string) (x : string) : bool :=
  match l with
  | [] => false
  | y :: l' => String.eqb y x || includes l' x
  end.

(** [ToString] of a string-or-undefined value. *)
Definition ToString (v : option string) : string :=
  match v with
  | Some s => s
  | None => "undefined"
  end.

(** The code point that [n] continuation bytes at the head of [s] add to
    [acc]; [None] when [s] does not begin with [n] continuation bytes. *)
Fixpoint continuation (n : nat) (acc : N) (s : string) : option N :=
  match n with
  | O => Some acc
  | S k =>
      match s with
      | String c r =>
          let u := N_of_ascii c in
          if ((128 <=? u) && (u <? 192))%N
          then continuation k (acc * 64 + (u - 128))%N r
          else None
      | EmptyString => None
      end
  end.

(** The character that begins with the byte [c], followed by [r]: its
    code point, and the number of bytes of [r] that belong to it.  A byte
    that begins no well-formed sequence is read as the character of that
    code, so that a no-break space is also recognised as the single byte
    160. *)
Definition headChar (c : ascii) (r : string) : N * nat :=
  let u := N_of_ascii c in
  let '(lead, extra) :=
    if (u <? 192)%N then (u, 0%nat)
    else if (u <? 224)%N then ((u - 192)%N, 1%nat)
    else if (u <? 240)%N then ((u - 224)%N, 2%nat)
    else if (u <? 248)%N then ((u - 240)%N, 3%nat)
    else (u, 0%nat) in
  match continuation extra lead r with
  | Some cp => (cp, extra)
  | None => (u, 0%nat)
  end.

(** The white space and the line terminators of ECMAScript, which
    [parseInt] skips and [trim] removes: TAB, LF, VT, FF, CR, SP, the
    no-break space, the byte order mark, the line and paragraph separators
    and the other characters of the category of space separators. *)
Definition isWhiteSpace (cp : N) : bool :=
  ((9 <=? cp) && (cp <=? 13) || (cp =? 32) || (cp =? 0xA0) || (cp =? 0x1680)
   || (0x2000 <=? cp) && (cp <=? 0x200A) || (cp =? 0x2028) || (cp =? 0x2029)
   || (cp =? 0x202F) || (cp =? 0x205F) || (cp =? 0x3000) || (cp =? 0xFEFF))%N.

(** [s] without the white space at its head; [skip] counts the bytes still
    to be passed over of a character that is white space. *)
Fixpoint trimStartFrom (skip : nat) (s : string) : string :=
  match s with
  | EmptyString => EmptyString
  | String c r =>
      match skip with
      | S k => trimStartFrom k r
      | O =>
          let '(cp, extra) := headChar c r in
          if isWhiteSpace cp then trimStartFrom extra r else s
      end
  end.

Definition trimStart (s : string) : string := trimStartFrom 0 s.

(** [s] without the white space at its end; [keep] counts the bytes still
    to be copied of a character that is kept. *)
Fixpoint trimEndFrom (keep : nat) (s : string) : string :=
  match s with
  | EmptyString => EmptyString
  | String c r =>
      match keep with
      | S k => String c (trimEndFrom k r)
      | O =>
          match trimStart s with
          | EmptyString => EmptyString
          | _ => String c (trimEndFrom (snd (headChar c r)) r)
          end
      end
  end.

Definition trimEnd (s : string) : string := trimEndFrom 0 s.

(** [String.prototype.trim]. *)
Definition trim (s : string) : string := trimEnd (trimStart s).

Definition digitValue (c : ascii) : option Z :=
  let n := code c in
  if (48 <=? n)%nat && (n <=? 57)%nat then Some (Z.of_nat (n - 48)) else None.

(** The value of the longest prefix of decimal digits; [acc] is [None]
    until a first digit has been read. *)
Fixpoint parseDigits (s : string) (acc : option Z) : option Z :=
  match s with
  | EmptyString => acc
  | String c s' =>
      match digitValue c with
      | Some d =>
          parseDigits s' (Some (10 * match acc with Some a => a | None => 0 end + d)%Z)
      | None => acc
      end
  end.

(** [parseInt(v, 10)]; [None] is [NaN]. *)
Definition parseInt (v : option string) : option Z :=
  let s := trimStart (ToString v) in
  let '(sign, digits) :=
    match s with
    | String "-" r => ((-1)%Z, r)
    | String "+" r => (1%Z, r)
    | _ => (1%Z, s)
    end in
  match parseDigits digits None with
  | Some m => Some (sign * m)%Z
  | None => None
  end.

(** Decimal notation of an integer, as [String(n)] gives it. *)
Definition intToString (z : Z) : string :=
  NilZero.string_of_int (Z.to_int z).

Definition isInteger (q : Q) : bool := (Zpos (Qden (Qred q)) =? 1)%Z.

(** [String(q)].  An integer below [10^21] in absolute value is printed in
    decimal notation; for every other number the engine's shortest
    round-trip notation is the parameter [otherToString]. *)
Definition numberToString (otherToString : Q -> string) (q : Q) : string :=
  if isInteger q && (Z.abs (Qnum (Qred q)) <? 10 ^ 21)%Z
  then intToString (Qnum (Qred q))
  else otherToString q.

(** [Math.max] and [Math.min] on numbers. *)
Definition Math_max (a b : Q) : Q := Qmax a b.
Definition Math_min (a b : Q) : Q := Qmin a b.

(** [s.startsWith(pat)]. *)
Fixpoint startsWith (pat s : string) : bool :=
  match pat with
  | EmptyString => true
  | String a pat' =>
      match s with
      | EmptyString => false
      | String b s' => Ascii.eqb a b && startsWith pat' s'
      end
  end.

(** Occurrences of [pat] in [s], one per starting position. *)
Fixpoint occurrences (pat s : string) : nat :=
  match s with
  | EmptyString => if startsWith pat EmptyString then 1 else 0
  | String c s' =>
      ((if startsWith pat s then 1 else 0) + occurrences pat s')%nat
  end.

(** [s] has [sub] as a substring. *)
Definition contains (s sub : string) : Prop :=
  exists pre post, s = pre ++ sub ++ post.

(** No character of [s] is [c]. *)
Fixpoint lacks (c : ascii) (s : string) : bool :=
  match s with
  | EmptyString => true
  | String d s' => negb (Ascii.eqb d c) && lacks c s'
  end.

(** How an operation that may throw completes. *)
Inductive Result (A : Type) : Type :=
| Ok (a : A)
| Throw (message : string).
Arguments Ok {A} a.
Arguments Throw {A} message.

End JS.

(** ** node/server.js *)

Module Server.
Import JS.

Definition Buffer : Type := list Byte.byte.

(** What [sharp(buffer).metadata()] reports and the code reads. *)
Module metadata.
Record t : Type := mk { width : Z; height : Z; format : option string }.
End metadata.

(** The [options] object the route builds from the form fields. *)
Module options.
Record t : Type := mk {
  fontFamily : option string;
  fontSize : option string;
  fontColor : option string;
  strokeColor : option string;
  strokeWidth : option string;
  xPosition : option string;
  yPosition : option string;
  textAlign : option string;
  dominantBaseline : option string;
  outputFormat : option string
}.
End options.

(** The [textOpts] object of [addTextToImage]. *)
Module textOpts.
Record t : Type := mk {
  text : string;
  fontFamily : string;
  fontSize : Q;
  fontColor : string;
  strokeColor : string;
  strokeWidth : Q;
  xPosition : string;
  yPosition : string;
  textAlign : string;
  dominantBaseline : string;
  outputFormat : string
}.

Definition set_outputFormat (o : t) (f : string) : t :=
  mk (text o) (fontFamily o) (fontSize o) (fontColor o) (strokeColor o)
     (strokeWidth o) (xPosition o) (yPosition o) (textAlign o)
     (dominantBaseline o) f.
End textOpts.

(** *** xmlEscape *)

(** The character class of the regular expression: the less-than and
    greater-than signs, the ampersand, the apostrophe and the double
    quote. *)
Definition matchesClass (c : ascii) : bool :=
  Ascii.eqb c "<" || Ascii.eqb c ">" || Ascii.eqb c "&"
  || Ascii.eqb c "039" || Ascii.eqb c "034".

(** The replacement callback: the [switch] on the matched character. *)
Definition replacement (c : ascii) : string :=
  if Ascii.eqb c "<" then "&lt;"
  else if Ascii.eqb c ">" then "&gt;"
  else if Ascii.eqb c "&" then "&amp;"
  else if Ascii.eqb c "039" then "&apos;"
  else if Ascii.eqb c "034" then "&quot;"
  else String c EmptyString.

(** [str.replace] with that global regular expression and the
    callback. *)
Fixpoint replaceAll (s : string) : string :=
  match s with
  | EmptyString => EmptyString
  | String c s' =>
      (if matchesClass c then replacement c else String c EmptyString)
      ++ replaceAll s'
  end.

(** [xmlEscape(str)]; a value that is not a string gives the empty
    string. *)
Definition xmlEscape (str : option string) : string :=
  match str with
  | None => EmptyString
  | Some s => replaceAll s
  end.

(** The inverse reading of the five entities, used to state that every
    special character was replaced by its own entity; [skip] counts the
    characters of an entity still to be passed over. *)
Fixpoint unescapeFrom (skip : nat) (s : string) : string :=
  match s with
  | EmptyString => EmptyString
  | String c s' =>
      match skip with
      | S k => unescapeFrom k s'
      | O =>
          if startsWith "&lt;" s then String "<" (unescapeFrom 3 s')
          else if startsWith "&gt;" s then String ">" (unescapeFrom 3 s')
          else if startsWith "&amp;" s then String "&" (unescapeFrom 4 s')
          else if startsWith "&apos;" s then String "039" (unescapeFrom 5 s')
          else if startsWith "&quot;" s then String "034" (unescapeFrom 5 s')
          else String c (unescapeFrom 0 s')
      end
  end.

Definition xmlUnescape (s : string) : string := unescapeFrom 0 s.

(** Every ampersand of [s] opens one of the five entities. *)
Fixpoint ampersandsOpenEntities (s : string) : bool :=
  match s with
  | EmptyString => true
  | String c s' =>
      (negb (Ascii.eqb c "&")
       || startsWith "&lt;" s || startsWith "&gt;" s
       || startsWith "&amp;" s || startsWith "&apos;" s
       || startsWith "&quot;" s)
      && ampersandsOpenEntities s'
  end.

(** *** Option resolution of addTextToImage *)

Definition defaultFontSize (m : metadata.t) : Q :=
  Math_max 20 (Math_min (inject_Z (metadata.width m)) (inject_Z (metadata.height m)) / 12).

(** [parseInt(options.fontSize, 10) || defaultFontSize]: [NaN] and [0]
    are falsy. *)
Definition currentFontSize (m : metadata.t) (o : options.t) : Q :=
  match parseInt (options.fontSize o) with
  | Some z => if (z =? 0)%Z then defaultFontSize m else inject_Z z
  | None => defaultFontSize m
  end.

(** [parseInt(options.strokeWidth, 10) >= 0 ? parseInt(...) :
    Math.max(1, currentFontSize / 20)]. *)
Definition resolvedStrokeWidth (m : metadata.t) (o : options.t) : Q :=
  match parseInt (options.strokeWidth o) with
  | Some z =>
      if (0 <=? z)%Z then inject_Z z
      else Math_max 1 (currentFontSize m o / 20)
  | None => Math_max 1 (currentFontSize m o / 20)
  end.

(** The object literal assigned to [textOpts]. *)
Definition initialTextOpts (m : metadata.t) (textValue : option string)
    (o : options.t) : textOpts.t :=
  {| textOpts.text := xmlEscape (Some (orStr textValue "Sample Text"));
     textOpts.fontFamily := orStr (options.fontFamily o) "Arial";
     textOpts.fontSize := currentFontSize m o;
     textOpts.fontColor := orStr (options.fontColor o) "#FFFFFF";
     textOpts.strokeColor := orStr (options.strokeColor o) "#000000";
     textOpts.strokeWidth := resolvedStrokeWidth m o;
     textOpts.xPosition := orStr (options.xPosition o) "50%";
     textOpts.yPosition := orStr (options.yPosition o) "50%";
     textOpts.textAlign := orStr (options.textAlign o) "middle";
     textOpts.dominantBaseline := orStr (options.dominantBaseline o) "middle";
     textOpts.outputFormat :=
       toLowerCase
         (orStr (orElse (options.outputFormat o) (metadata.format m)) "png") |}.

Definition validFormats : list string :=
  ["jpeg"; "jpg"; "png"; "webp"; "tiff"; "gif"; "avif"].

(** The two [if] statements on [textOpts.outputFormat], as a function of
    the format; the warning is issued by [addTextToImage] below. *)
Definition sanitizeFormat (f : string) : string :=
  let f1 := if negb (includes validFormats f) then "png" else f in
  if String.eqb f1 "jpg" then "jpeg" else f1.

(** [textOpts] as it is when the markup is built. *)
Definition resolvedTextOpts (m : metadata.t) (textValue : option string)
    (o : options.t) : textOpts.t :=
  let t := initialTextOpts m textValue o in
  textOpts.set_outputFormat t (sanitizeFormat (textOpts.outputFormat t)).

(** *** The markup *)

(** The template literal assigned to [svgText]; the image dimensions are
    integers, the font size and the stroke width are numbers. *)
Definition svgText (otherToString : Q -> string) (m : metadata.t)
    (t : textOpts.t) : string :=
  NL ++
  "          <svg width=" ++ DQ ++ intToString (metadata.width m) ++ DQ
    ++ " height=" ++ DQ ++ intToString (metadata.height m) ++ DQ ++ ">" ++ NL ++
  "            <style>" ++ NL ++
  "              .title {" ++ NL ++
  "                fill: " ++ DQ ++ textOpts.fontColor t ++ DQ ++ ";" ++ NL ++
  "                font-size: " ++ numberToString otherToString (textOpts.fontSize t)
    ++ "px;" ++ NL ++
  "                font-family: " ++ DQ ++ textOpts.fontFamily t ++ DQ ++ ";" ++ NL ++
  "                text-anchor: " ++ DQ ++ textOpts.textAlign t ++ DQ ++ ";" ++ NL ++
  "                dominant-baseline: " ++ DQ ++ textOpts.dominantBaseline t ++ DQ
    ++ ";" ++ NL ++
  "                paint-order: stroke; /* Ensures stroke is drawn behind fill */" ++ NL ++
  "                stroke: " ++ DQ ++ textOpts.strokeColor t ++ DQ ++ ";" ++ NL ++
  "                stroke-width: " ++ numberToString otherToString (textOpts.strokeWidth t)
    ++ "px;" ++ NL ++
  "                stroke-linecap: round; /* Smoother stroke ends */" ++ NL ++
  "                stroke-linejoin: round; /* Smoother stroke joins */" ++ NL ++
  "              }" ++ NL ++
  "            </style>" ++ NL ++
  "            <text x=" ++ DQ ++ textOpts.xPosition t ++ DQ ++ " y=" ++ DQ
    ++ textOpts.yPosition t ++ DQ ++ " class=" ++ DQ ++ "title" ++ DQ ++ ">"
    ++ textOpts.text t ++ "</text>" ++ NL ++
  "          </svg>" ++ NL ++
  "        ".

(** *** Computations: a log of effects and a result or a thrown error *)

(** The encoder call chosen by the [switch] on the output format. *)
Inductive Encoder : Type :=
| jpeg (quality : Z)
| png (compressionLevel : Z)
| webp (quality : Z)
| avif (quality : Z)
| tiff (quality : Z)
| toFormat (format : string).

Inductive Event : Type :=
| SharpMetadata (input : Buffer)
| SharpToBuffer (input : Buffer) (overlay : string) (enc : Encoder)
| ConsoleWarn (msg : string)
| ConsoleError (msg : string).

Definition M (A : Type) : Type := (list Event * Result A)%type.

Definition ret {A} (a : A) : M A := ([], Ok a).
Definition throw {A} (message : string) : M A := ([], Throw message).
Definition emit (e : Event) : M unit := ([e], Ok tt).

Definition bind {A B} (m : M A) (k : A -> M B) : M B :=
  match m with
  | (l, Ok a) => let '(l', r) := k a in ((l ++ l')%list, r)
  | (l, Throw e) => (l, Throw e)
  end.

Definition tryCatch {A} (m : M A) (handler : string -> M A) : M A :=
  match m with
  | (l, Ok a) => (l, Ok a)
  | (l, Throw e) => let '(l', r) := handler e in ((l ++ l')%list, r)
  end.

Notation "x <- m ;; k" := (bind m (fun x => k))
  (at level 61, m at next level, right associativity).
Notation "m ;;; k" := (bind m (fun _ => k))
  (at level 61, right associativity).

(** An event is a call into the image library. *)
Definition isImageProcessing (e : Event) : bool :=
  match e with
  | SharpMetadata _ | SharpToBuffer _ _ _ => true
  | _ => false
  end.

(** *** The request and the response *)

Module file.
Record t : Type := mk { buffer : Buffer; mimetype : string }.
End file.

(** The text fields of the multipart body. *)
Module body.
Record t : Type := mk {
  text : option string;
  fontFamily : option string;
  fontSize : option string;
  fontColor : option string;
  strokeColor : option string;
  strokeWidth : option string;
  xPosition : option string;
  yPosition : option string;
  textAlign : option string;
  dominantBaseline : option string;
  outputFormat : option string
}.
End body.

Module req.
Record t : Type := mk { file : option file.t; body : body.t }.
End req.

Inductive Payload : Type :=
| JsonText (json : string)
| Bytes (b : Buffer).

Module res.
Record t : Type := mk { status : Z; contentType : string; payload : Payload }.
End res.

(** [JSON.stringify] of a string. *)
Definition hexDigit (n : nat) : ascii :=
  ascii_of_nat (if (n <? 10)%nat then 48 + n else 87 + n).

Definition BS : string := String "092" EmptyString.

Definition quoteChar (c : ascii) : string :=
  let n := code c in
  if (n =? 34)%nat then BS ++ DQ
  else if (n =? 92)%nat then BS ++ BS
  else if (n =? 8)%nat then BS ++ "b"
  else if (n =? 9)%nat then BS ++ "t"
  else if (n =? 10)%nat then BS ++ "n"
  else if (n =? 12)%nat then BS ++ "f"
  else if (n =? 13)%nat then BS ++ "r"
  else if (n <? 32)%nat then
    BS ++ "u00" ++ String (hexDigit (n / 16)) (String (hexDigit (n mod 16)) EmptyString)
  else String c EmptyString.

Fixpoint quoteChars (s : string) : string :=
  match s with
  | EmptyString => EmptyString
  | String c s' => quoteChar c ++ quoteChars s'
  end.

Definition JSON_stringify_string (s : string) : string :=
  DQ ++ quoteChars s ++ DQ.

(** [res.status(code).json({ error: message })]. *)
Definition jsonError (code : Z) (message : string) : res.t :=
  {| res.status := code;
     res.contentType := "application/json; charset=utf-8";
     res.payload :=
       JsonText ("{" ++ DQ ++ "error" ++ DQ ++ ":" ++ JSON_stringify_string message ++ "}") |}.

(** *** addTextToImage and the route *)

Definition encoderFor (outputFormat : string) : Encoder :=
  if String.eqb outputFormat "jpeg" then jpeg 85
  else if String.eqb outputFormat "png" then png 6
  else if String.eqb outputFormat "webp" then webp 85
  else if String.eqb outputFormat "avif" then avif 60
  else if String.eqb outputFormat "tiff" then tiff 85
  else toFormat outputFormat.

(** What [addTextToImage] resolves to. *)
Module output.
Record t : Type := mk { buffer : Buffer; format : string }.
End output.

Section Sharp.

(** The image library: reading the metadata of a buffer, and compositing
    an overlay onto it and encoding the result; either may throw.  And
    the engine's notation of numbers that are not small integers. *)
Variable sharp_metadata : Buffer -> Result metadata.t.
Variable sharp_toBuffer : Buffer -> string -> Encoder -> Result Buffer.
Variable otherToString : Q -> string.

Definition image_metadata (input : Buffer) : M metadata.t :=
  ([SharpMetadata input], sharp_metadata input).

Definition image_toBuffer (input : Buffer) (overlay : string)
    (enc : Encoder) : M Buffer :=
  ([SharpToBuffer input overlay enc], sharp_toBuffer input overlay enc).

Definition addTextToImage (imageBuffer : Buffer) (textValue : option string)
    (o : options.t) : M output.t :=
  tryCatch
    (metadata <- image_metadata imageBuffer ;;
     let t0 := initialTextOpts metadata textValue o in
     (if negb (includes validFormats (textOpts.outputFormat t0))
      then emit (ConsoleWarn ("Invalid output format: " ++ textOpts.outputFormat t0
                              ++ ". Defaulting to png."))
      else ret tt) ;;;
     let t := resolvedTextOpts metadata textValue o in
     let svg := svgText otherToString metadata t in
     finalBuffer <- image_toBuffer imageBuffer svg (encoderFor (textOpts.outputFormat t)) ;;
     ret {| output.buffer := finalBuffer; output.format := textOpts.outputFormat t |})
    (fun message =>
       emit (ConsoleError ("Error in addTextToImage: " ++ message)) ;;;
       throw ("Failed to add text overlay: " ++ message)).

(** The [options] object gathered from the request body. *)
Definition gatherOptions (b : body.t) : options.t :=
  {| options.fontFamily := body.fontFamily b;
     options.fontSize := body.fontSize b;
     options.fontColor := body.fontColor b;
     options.strokeColor := body.strokeColor b;
     options.strokeWidth := body.strokeWidth b;
     options.xPosition := body.xPosition b;
     options.yPosition := body.yPosition b;
     options.textAlign := body.textAlign b;
     options.dominantBaseline := body.dominantBaseline b;
     options.outputFormat := body.outputFormat b |}.

(** [req.body.text !== ""]. *)
Definition notEmptyString (v : option string) : bool :=
  match v with
  | Some EmptyString => false
  | _ => true
  end.

(** The handler of [POST /api/image/add-text], after the upload
    middleware has filled [req.file] and [req.body]. *)
Definition post_add_text (r : req.t) : M res.t :=
  match req.file r with
  | None => ret (jsonError 400 "No image file uploaded.")
  | Some f =>
      let text := body.text (req.body r) in
      if negb (truthy text) && notEmptyString text
      then ret (jsonError 400 "No text parameter provided for overlay.")
      else
        tryCatch
          (out <- addTextToImage (file.buffer f) text (gatherOptions (req.body r)) ;;
           ret {| res.status := 200;
                  res.contentType := "image/" ++ output.format out;
                  res.payload := Bytes (output.buffer out) |})
          (fun message =>
             emit (ConsoleError ("Route /api/image/add-text error: " ++ message)) ;;;
             ret (jsonError 500
                    (orStr (Some message)
                           "An error occurred while processing the image.")))
  end.

End Sharp.

End Server.

(** ** image-processing/node/image-processing.js *)

Module ImageProcessing.
Import JS.

Definition Buffer : Type := list Byte.byte.

(** The parts of the marketplace SDK's objects that the script reads. *)
Module service.
Record t : Type := mk { id : string; type : string }.
End service.

Module ddo.
Record t : Type := mk { id : string; services : list service.t }.
End ddo.

Module fileObject.
Record t : Type := mk { url : option string }.
End fileObject.

Module provider.
Record t : Type := mk {
  getEncryptedFiles :
    string -> string -> string -> Result (option (list fileObject.t))
}.
End provider.

Module ocean.
Record t : Type := mk {
  assets_resolve : string -> Result (option ddo.t);
  provider : option provider.t
}.
End ocean.

(** The configuration object handed to [Ocean.getInstance]. *)
Module config.
Record t : Type := mk {
  metadataCacheUri : string;
  networkNodeUri : string;
  providerUri : string;
  nodeUri : string;
  web3Provider : option string;
  verbose : bool;
  chainId : option Z
}.
End config.

(** What the script does that can be observed: the lines it logs, and its
    calls of the file system, of the SDK and of the HTTP client. *)
Inductive Event : Type :=
| LoggerLog (msg : string)
| LoggerWarn (msg : string)
| LoggerError (msg : string)
| FsReadFile (path : string)
| FsWriteFile (path : string)
| FsMkdir (path : string)
| GetInstance (cfg : config.t)
| AssetsResolve (did : string)
| GetEncryptedFiles (ddoId serviceId : string)
| AxiosGet (url : string).

(** [did.replace(/[^a-zA-Z0-9]/g, '_')]: every code unit that is not a
    letter or a digit of the ASCII range becomes an underscore.  A
    character outside the ASCII range is one code unit, and two when its
    code point is above [0xFFFF]; [skip] counts the bytes still to be
    passed over of a character that was replaced. *)
Definition isAlphaNumeric (c : ascii) : bool :=
  let n := code c in
  ((97 <=? n)%nat && (n <=? 122)%nat)
  || ((65 <=? n)%nat && (n <=? 90)%nat)
  || ((48 <=? n)%nat && (n <=? 57)%nat).

Fixpoint replaceFrom (skip : nat) (s : string) : string :=
  match s with
  | EmptyString => EmptyString
  | String c r =>
      match skip with
      | S k => replaceFrom k r
      | O =>
          if isAlphaNumeric c then String c (replaceFrom 0 r)
          else
            let '(cp, extra) := headChar c r in
            (if (cp <? 0x10000)%N then "_" else "__") ++ replaceFrom extra r
      end
  end.

Definition replaceNonAlphaNumeric (s : string) : string := replaceFrom 0 s.

Definition defaultImageUrl : string :=
  "https://raw.githubusercontent.com/oceanprotocol/c2d-examples/main/custom_algorithm/lena.png".

Definition publisherAddress : string :=
  "0x0000000000000000000000000000000000000000".

Section World.

(** The file system is a state [FS] with the four operations the script
    calls; the HTTP client, [path.join] and [process.env] are
    functions.  Nothing is assumed about any of them. *)
Variable FS : Type.
Variable fs_existsSync : FS -> string -> bool.
Variable fs_readFile : FS -> string -> Result Buffer.
Variable fs_writeFile : FS -> string -> Buffer -> FS * Result unit.
Variable fs_mkdirSync : FS -> string -> FS * Result unit.
Variable axios_get : string -> Result Buffer.
Variable path_join : string -> string -> string.
Variable env : string -> option string.

(** A computation reads and updates the file system, logs its effects
    and returns or throws. *)
Definition M (A : Type) : Type := FS -> (list Event * FS * Result A)%type.

Definition ret {A} (a : A) : M A := fun fs => ([], fs, Ok a).

Definition bind {A B} (m : M A) (k : A -> M B) : M B :=
  fun fs =>
    match m fs with
    | (l, fs1, Ok a) => let '(l', fs2, r) := k a fs1 in ((l ++ l')%list, fs2, r)
    | (l, fs1, Throw e) => (l, fs1, Throw e)
    end.

Definition tryCatch {A} (m : M A) (handler : string -> M A) : M A :=
  fun fs =>
    match m fs with
    | (l, fs1, Ok a) => (l, fs1, Ok a)
    | (l, fs1, Throw e) =>
        let '(l', fs2, r) := handler e fs1 in ((l ++ l')%list, fs2, r)
    end.

Notation "x <- m ;; k" := (bind m (fun x => k))
  (at level 61, m at next level, right associativity).
Notation "m ;;; k" := (bind m (fun _ => k))
  (at level 61, right associativity).

Definition emit (e : Event) : M unit := fun fs => ([e], fs, Ok tt).

(** An operation that leaves the file system alone. *)
Definition call {A} (e : Event) (r : Result A) : M A :=
  fun fs => ([e], fs, r).

Definition existsSync (path : string) : M bool :=
  fun fs => ([], fs, Ok (fs_existsSync fs path)).

Definition readFile (path : string) : M Buffer :=
  fun fs => ([FsReadFile path], fs, fs_readFile fs path).

Definition writeFile (path : string) (data : Buffer) : M unit :=
  fun fs => let '(fs', r) := fs_writeFile fs path data in ([FsWriteFile path], fs', r).

Definition mkdirSync (path : string) : M unit :=
  fun fs => let '(fs', r) := fs_mkdirSync fs path in ([FsMkdir path], fs', r).

(** [downloadOceanAsset(ocean, did, downloadPath)]: the path of the
    downloaded file, or [null]. *)
Definition downloadOceanAsset (oceanInstance : option ocean.t) (did : string)
    (downloadPath : string) : M (option string) :=
  match oceanInstance with
  | None =>
      emit (LoggerError "Ocean instance is not available for downloading asset.") ;;;
      ret None
  | Some oc =>
      tryCatch
        (emit (LoggerLog ("Attempting to download asset with DID: " ++ did)) ;;;
         resolved <- call (AssetsResolve did) (ocean.assets_resolve oc did) ;;
         match resolved with
         | None =>
             emit (LoggerError ("Could not resolve DDO for DID: " ++ did)) ;;;
             ret None
         | Some d =>
             emit (LoggerLog "DDO resolved successfully.") ;;;
             let found :=
               find (fun s => String.eqb (service.type s) "access") (ddo.services d) in
             chosen <-
               match found, ddo.services d with
               | None, first :: _ =>
                   emit (LoggerWarn "No 'access' service found, trying first available service. This might not be suitable for direct download.") ;;;
                   ret (Some first)
               | _, _ => ret found
               end ;;
             match chosen with
             | None =>
                 emit (LoggerError ("No suitable service found in DDO for DID: " ++ did
                                    ++ " to download the file.")) ;;;
                 ret None
             | Some sv =>
                 emit (LoggerLog ("Using service ID: " ++ service.id sv ++ ", type: "
                                  ++ service.type sv)) ;;;
                 match ocean.provider oc with
                 | None =>
                     emit (LoggerError "Ocean Provider is not available.") ;;;
                     ret None
                 | Some pr =>
                     fileObjects <-
                       call (GetEncryptedFiles (ddo.id d) (service.id sv))
                            (provider.getEncryptedFiles pr (ddo.id d) (service.id sv)
                               publisherAddress) ;;
                     match fileObjects with
                     | None | Some [] =>
                         emit (LoggerError "No file objects returned by provider for download.") ;;;
                         ret None
                     | Some (fo :: _) =>
                         if truthy (fileObject.url fo) then
                           let fileUrl := ToString (fileObject.url fo) in
                           emit (LoggerLog ("Publicly accessible URL obtained from provider: "
                                            ++ fileUrl)) ;;;
                           data <- call (AxiosGet fileUrl) (axios_get fileUrl) ;;
                           writeFile downloadPath data ;;;
                           emit (LoggerLog ("Asset " ++ did ++ " downloaded successfully to "
                                            ++ downloadPath)) ;;;
                           ret (Some downloadPath)
                         else
                           emit (LoggerError ("Could not get a downloadable URL for DID: "
                                              ++ did)) ;;;
                           ret None
                     end
                 end
             end
         end)
        (fun message =>
           emit (LoggerError ("Error downloading asset " ++ did ++ ": " ++ message)) ;;;
           ret None)
  end.

(** [getImageBuffer(oceanInstance)]: the image buffer, or [null].  The
    further lines the [catch] block logs about the same error are not
    told apart. *)
Definition getImageBuffer (oceanInstance : option ocean.t) : M (option Buffer) :=
  let inputFile := env "INPUT_FILE_PATH_0" in
  let inputDid := env "INPUT_DID_0" in
  let inputUrl := orElse (env "INPUT_IMAGE_URL") (env "IMAGE_URL") in
  tryCatch
    (if truthy inputFile then
       let inputFile := ToString inputFile in
       emit (LoggerLog ("Reading image from local file path: " ++ inputFile)) ;;;
       present <- existsSync inputFile ;;
       if present then
         data <- readFile inputFile ;;
         ret (Some data)
       else
         emit (LoggerError ("Error: Input file path does not exist: " ++ inputFile)) ;;;
         ret None
     else if truthy inputDid then
       let inputDid := ToString inputDid in
       emit (LoggerLog ("Workspaceing image from Ocean DID: " ++ inputDid)) ;;;
       match oceanInstance with
       | None =>
           emit (LoggerError "Ocean instance not initialized, cannot process DID input.") ;;;
           ret None
       | Some _ =>
           let tempDownloadDir :=
             path_join
               (orStr (orElse (env "OUTPUT_DIR") (env "RESULTS_DIR")) "/data/outputs")
               "temp_downloads" in
           present <- existsSync tempDownloadDir ;;
           (if negb present then mkdirSync tempDownloadDir else ret tt) ;;;
           let downloadedFilePath :=
             path_join tempDownloadDir (replaceNonAlphaNumeric inputDid ++ ".tmp") in
           resultPath <- downloadOceanAsset oceanInstance inputDid downloadedFilePath ;;
           if truthy resultPath then
             buffer <- readFile (ToString resultPath) ;;
             ret (Some buffer)
           else ret None
       end
     else if truthy inputUrl then
       let inputUrl := ToString inputUrl in
       emit (LoggerLog ("Workspaceing image from URL: " ++ inputUrl)) ;;;
       data <- call (AxiosGet inputUrl) (axios_get inputUrl) ;;
       ret (Some data)
     else
       emit (LoggerWarn ("No specific input provided. Using default image URL: "
                         ++ defaultImageUrl)) ;;;
       data <- call (AxiosGet defaultImageUrl) (axios_get defaultImageUrl) ;;
       ret (Some data))
    (fun message =>
       emit (LoggerError ("Error getting image buffer: " ++ message)) ;;;
       ret None).

(** The value a computation returns, its log and its final state. *)
Definition value {A} (x : list Event * FS * Result A) : Result A := snd x.
Definition events {A} (x : list Event * FS * Result A) : list Event := fst (fst x).
Definition finalState {A} (x : list Event * FS * Result A) : FS := snd (fst x).

End World.

Arguments value {FS A} x.
Arguments events {FS A} x.
Arguments finalState {FS A} x.

End ImageProcessing.

(** * What the specification says, for comparison with the code *)

Module Spec.
Import JS Server.

(** The entity table, as the specification words it. *)
Definition namedEntities : list (ascii * string) :=
  [("<"%char, "&lt;"); (">"%char, "&gt;"); ("&"%char, "&amp;");
   ("039"%char, "&apos;"); ("034"%char, "&quot;")].

Fixpoint entityOf (table : list (ascii * string)) (c : ascii) : string :=
  match table with
  | [] => String c EmptyString
  | (k, e) :: rest => if Ascii.eqb c k then e else entityOf rest c
  end.

Fixpoint escapeBySpec (s : string) : string :=
  match s with
  | EmptyString => EmptyString
  | String c s' => entityOf namedEntities c ++ escapeBySpec s'
  end.

(** The format strings the specification accepts, and the formats it
    allows as a result. *)
Definition whitelist : list string :=
  ["jpeg"; "jpg"; "png"; "webp"; "avif"; "tiff"; "gif"].

Definition supportedFormats : list string :=
  ["jpeg"; "png"; "webp"; "avif"; "tiff"; "gif"].

(** A request that supplies none of the optional fields. *)
Definition noOptions : options.t :=
  options.mk None None None None None None None None None None.

Definition resolvedFormat (m : metadata.t) (o : options.t) : string :=
  textOpts.outputFormat (resolvedTextOpts m None o).

(** Output-format resolution as the specification states it, at one
    input. *)
Definition formatResolution_as_stated (m : metadata.t) (o : options.t) : Prop :=
  match options.outputFormat o with
  | Some s =>
      if includes whitelist (toLowerCase s)
      then In (resolvedFormat m o) supportedFormats
           /\ (toLowerCase s = "jpg" -> resolvedFormat m o = "jpeg")
      else resolvedFormat m o = "png"
  | None =>
      resolvedFormat m o =
        match metadata.format m with Some d => d | None => "png" end
  end.

(** The invariant of the resolved options as the specification states
    it, at one input. *)
Definition resolvedInvariant_as_stated (m : metadata.t) (o : options.t) : Prop :=
  let t := resolvedTextOpts m None o in
  0 < textOpts.fontSize t /\ 0 < textOpts.strokeWidth t
  /\ In (textOpts.outputFormat t) supportedFormats.

(** The option values that are copied into the markup. *)
Definition copiedOptions (o : options.t) : list (option string) :=
  [options.fontFamily o; options.fontColor o; options.strokeColor o;
   options.xPosition o; options.yPosition o; options.textAlign o;
   options.dominantBaseline o].

(** The markup has exactly one text node, as the specification states it
    for every input. *)
Definition oneTextNode_as_stated (otherToString : Q -> string)
    (m : metadata.t) (textValue : option string) (o : options.t) : Prop :=
  occurrences "<text" (svgText otherToString m (resolvedTextOpts m textValue o)) = 1%nat.

(** The warning about an invalid output format, if one is issued. *)
Definition formatWarning (t0 : textOpts.t) : list Event :=
  if negb (includes validFormats (textOpts.outputFormat t0))
  then [ConsoleWarn ("Invalid output format: " ++ textOpts.outputFormat t0
                     ++ ". Defaulting to png.")]
  else [].

(** The scenario of the specification: a 400 by 300 PNG image, the text
    [Hi <there>] and no other field. *)
Definition scenarioMetadata : metadata.t := metadata.mk 400 300 (Some "png").

Definition scenarioBody : body.t :=
  body.mk (Some "Hi <there>") None None None None None None None None None None.

(** A body with nothing but the given text field. *)
Definition bodyWithText (text : option string) : body.t :=
  body.mk text None None None None None None None None None None.

Definition noFileResponse : res.t := jsonError 400 "No image file uploaded.".

Definition noTextResponse : res.t :=
  jsonError 400 "No text parameter provided for overlay.".

(** The scenario's font size as the specification states it. *)
Definition scenarioFontSize_as_stated : Prop :=
  textOpts.fontSize
    (resolvedTextOpts scenarioMetadata (body.text scenarioBody)
       (gatherOptions scenarioBody)) == 33.

(** The rejection for a missing text field as the specification states
    it, at one request. *)
Definition textRejection_as_stated
    (sharp_metadata : Buffer -> Result metadata.t)
    (sharp_toBuffer : Buffer -> string -> Encoder -> Result Buffer)
    (otherToString : Q -> string) (r : req.t) : Prop :=
  snd (post_add_text sharp_metadata sharp_toBuffer otherToString r) = Ok noTextResponse
  <-> body.text (req.body r) = None.

(** An image library that reports the scenario's metadata for every
    buffer and encodes to an empty buffer, and a notation for the one
    number the examples print that is not an integer. *)
Definition stubMetadata : Buffer -> Result metadata.t :=
  fun _ => Ok scenarioMetadata.

Definition stubToBuffer : Buffer -> string -> Encoder -> Result Buffer :=
  fun _ _ _ => Ok [].

Definition stubOtherToString : Q -> string := fun _ => "1.25".

(** An [xPosition] that closes the text element and opens another. *)
Definition injectedPosition : string :=
  "0" ++ DQ ++ "></text><text x=" ++ DQ ++ "0".

End Spec.

Module ScriptSpec.
Import JS ImageProcessing.

(** The four image sources of the standalone script. *)
Inductive Source : Type :=
| LocalFile (path : string)
| MarketplaceAsset (did : string)
| RemoteUrl (url : string)
| DefaultUrl.

(** The source chosen by priority: a configured local path, otherwise a
    configured asset identifier, otherwise a configured URL, otherwise
    the default URL.  A variable set to the empty string is not
    configured. *)
Definition selectedSource (env : string -> option string) : Source :=
  match env "INPUT_FILE_PATH_0" with
  | Some (String c p) => LocalFile (String c p)
  | _ =>
      match env "INPUT_DID_0" with
      | Some (String c d) => MarketplaceAsset (String c d)
      | _ =>
          match env "INPUT_IMAGE_URL" with
          | Some (String c u) => RemoteUrl (String c u)
          | _ =>
              match env "IMAGE_URL" with
              | Some (String c u) => RemoteUrl (String c u)
              | _ => DefaultUrl
              end
          end
      end
  end.

(** The calls that leave the process: everything but the log lines. *)
Definition isExternal (e : Event) : bool :=
  match e with
  | LoggerLog _ | LoggerWarn _ | LoggerError _ => false
  | _ => true
  end.

Definition externalCalls (l : list Event) : list Event := filter isExternal l.

(** A buffer, or [null] when the operation threw. *)
Definition orNull (r : Result Buffer) : option Buffer :=
  match r with
  | Ok b => Some b
  | Throw _ => None
  end.

(** The service [downloadOceanAsset] uses: the first of type [access], or
    else the first one. *)
Definition chosenService (d : ddo.t) : option service.t :=
  match find (fun s => String.eqb (service.type s) "access") (ddo.services d) with
  | Some s => Some s
  | None => hd_error (ddo.services d)
  end.

(** The URL the provider names for the asset: that of the first file of
    the chosen service of the resolved asset. *)
Definition namedByProvider (oc : ocean.t) (did url : string) : Prop :=
  exists d sv pr fo rest,
    ocean.assets_resolve oc did = Ok (Some d)
    /\ chosenService d = Some sv
    /\ ocean.provider oc = Some pr
    /\ provider.getEncryptedFiles pr (ddo.id d) (service.id sv) publisherAddress
       = Ok (Some (fo :: rest))
    /\ fileObject.url fo = Some url.

(** Resolution of the asset identifier fails: the SDK throws or returns
    nothing. *)
Definition resolutionFails (oc : ocean.t) (did : string) : bool :=
  match ocean.assets_resolve oc did with
  | Ok (Some _) => false
  | _ => true
  end.

(** An environment with a local path and a URL configured. *)
Definition envFileAndUrl (name : string) : option string :=
  if String.eqb name "INPUT_FILE_PATH_0" then Some "/data/inputs/0/image.png"
  else if String.eqb name "INPUT_IMAGE_URL" then Some "https://example.org/image.png"
  else None.

End ScriptSpec.

(** ** node/server.js: the upload filter and the error handler *)

Module Upload.
Import JS Server.

Definition allowedMimes : list string :=
  ["image/jpeg"; "image/png"; "image/gif"; "image/webp"; "image/avif"; "image/tiff"].

(** An error value: whether it is an instance of [multer.MulterError], and
    its [message] property. *)
Module error.
Record t : Type := mk { isMulterError : bool; message : option string }.
End error.

(** The [fileFilter] option of the upload middleware: the error and the
    flag it passes to its callback. *)
Definition fileFilter (mimetype : string) : option error.t * bool :=
  if includes allowedMimes mimetype then (None, true)
  else (Some (error.mk false (Some "Invalid file type. Only image files are allowed.")),
        false).

(** The global error handler: the response it sends, if any.  The upload
    middleware hands the error of [fileFilter], and its own errors, to this
    handler. *)
Definition errorHandler (err : option error.t) (headersSent : bool) : option res.t :=
  match err with
  | Some e =>
      if error.isMulterError e
      then Some (jsonError 400 ("File upload error: " ++ ToString (error.message e)
                                ++ ". Check file size or type."))
      else Some (jsonError 500 (orStr (error.message e) "An unexpected error occurred."))
  | None =>
      if negb headersSent then Some (jsonError 404 "Resource not found.") else None
  end.

End Upload.

(** ** image-processing.js: initialisation, filtering and the main function *)

Module Script.
Import JS ImageProcessing.

(** [parseInt(v)] without a radix: hexadecimal after a [0x] prefix, decimal
    otherwise. *)
Definition hexValue (c : ascii) : option Z :=
  let n := code c in
  if (48 <=? n)%nat && (n <=? 57)%nat then Some (Z.of_nat (n - 48))
  else if (97 <=? n)%nat && (n <=? 102)%nat then Some (Z.of_nat (n - 87))
  else if (65 <=? n)%nat && (n <=? 70)%nat then Some (Z.of_nat (n - 55))
  else None.

Fixpoint parseHexDigits (s : string) (acc : option Z) : option Z :=
  match s with
  | EmptyString => acc
  | String c s' =>
      match hexValue c with
      | Some d =>
          parseHexDigits s' (Some (16 * match acc with Some a => a | None => 0 end + d)%Z)
      | None => acc
      end
  end.

Definition parseIntAuto (v : option string) : option Z :=
  let s := trimStart (ToString v) in
  let '(sign, rest) :=
    match s with
    | String "-" r => ((-1)%Z, r)
    | String "+" r => (1%Z, r)
    | _ => (1%Z, s)
    end in
  let parsed :=
    match rest with
    | String "0" (String "x" r) | String "0" (String "X" r) => parseHexDigits r None
    | _ => parseDigits rest None
    end in
  match parsed with
  | Some m => Some (sign * m)%Z
  | None => None
  end.

(** What [image.metadata()] reports and the script reads. *)
Module imageMetadata.
Record t : Type := mk { width : option Z; height : option Z }.
End imageMetadata.

(** The operations queued on the image before [toBuffer]. *)
Inductive Operation : Type :=
| blur (sigma : Z)
| grayscale
| sharpen (sigma m1 m2 x1 y2 y3 : Z)
| composite (input : string) (top left : Z).

(** Truthiness of a number that may be undefined. *)
Definition numberTruthy (v : option Z) : bool :=
  match v with
  | Some z => negb (z =? 0)%Z
  | None => false
  end.

(** The template literal assigned to [svgText] in
    [applyFilterAndTextToBuffer]. *)
Definition overlayFontSize (imageHeight : Z) : Z := Z.max 12 (imageHeight / 20).
Definition overlayPadding (imageHeight : Z) : Z := Z.max 5 (imageHeight / 50).

Definition overlayY (imageHeight : Z) : Q :=
  inject_Z imageHeight - inject_Z (overlayFontSize imageHeight) / 2
  - inject_Z (overlayPadding imageHeight).

Definition overlayText (otherToString : Q -> string) (imageWidth imageHeight : Z)
    (textToAdd textColorHex : string) : string :=
  NL ++
  "        <svg width=" ++ DQ ++ intToString imageWidth ++ DQ ++ " height=" ++ DQ
    ++ intToString imageHeight ++ DQ ++ ">" ++ NL ++
  "          <style>" ++ NL ++
  "            .title {" ++ NL ++
  "              fill: " ++ textColorHex ++ ";" ++ NL ++
  "              font-size: " ++ intToString (overlayFontSize imageHeight) ++ "px;" ++ NL ++
  "              font-family: Arial, sans-serif;" ++ NL ++
  "              font-weight: bold;" ++ NL ++
  "            }" ++ NL ++
  "          </style>" ++ NL ++
  "          <text x=" ++ DQ ++ "50%" ++ DQ ++ " y=" ++ DQ
    ++ numberToString otherToString (overlayY imageHeight) ++ DQ
    ++ " text-anchor=" ++ DQ ++ "middle" ++ DQ ++ " class=" ++ DQ ++ "title" ++ DQ ++ ">"
    ++ textToAdd ++ "</text>" ++ NL ++
  "        </svg>" ++ NL ++
  "      ".

(** The name of the output file, built in [main] from the filter and the
    text. *)
Definition baseFilename (filterToApply textToApply : option string) : string :=
  let effectiveFilter :=
    if truthy filterToApply then toLowerCase (trim (ToString filterToApply))
    else EmptyString in
  let effectiveText :=
    if truthy textToApply then trim (ToString textToApply) else EmptyString in
  "processed_image"
  ++ (if truthy (Some effectiveFilter) && negb (String.eqb effectiveFilter "none")
      then "_" ++ replaceNonAlphaNumeric effectiveFilter else EmptyString)
  ++ (if truthy (Some effectiveText) then "_with_text" else EmptyString)
  ++ ".png".

(** [JSON.stringify(resultsMetadata, null, 2)]. *)
Definition resultsJson (dateCreated algorithmDid jobId filePath : string)
    (contentLength : Z) : string :=
  let q := Server.JSON_stringify_string in
  "{" ++ NL ++
  "  " ++ q "dateCreated" ++ ": " ++ q dateCreated ++ "," ++ NL ++
  "  " ++ q "algorithmDid" ++ ": " ++ q algorithmDid ++ "," ++ NL ++
  "  " ++ q "jobId" ++ ": " ++ q jobId ++ "," ++ NL ++
  "  " ++ q "outputs" ++ ": [" ++ NL ++
  "    {" ++ NL ++
  "      " ++ q "type" ++ ": " ++ q "image/png" ++ "," ++ NL ++
  "      " ++ q "filePath" ++ ": " ++ q filePath ++ "," ++ NL ++
  "      " ++ q "contentLength" ++ ": " ++ intToString contentLength ++ NL ++
  "    }" ++ NL ++
  "  ]" ++ NL ++
  "}".

Section World.

(** The world of [ImageProcessing], with the image library, the SDK's
    constructor (a [null] instance counts as a throw, since the code reads
    a property of it at once), the clock and the notation of numbers that
    are not small integers. *)
Variable FS : Type.
Variable fs_existsSync : FS -> string -> bool.
Variable fs_readFile : FS -> string -> Result Buffer.
Variable fs_writeFile : FS -> string -> Buffer -> FS * Result unit.
Variable fs_mkdirSync : FS -> string -> FS * Result unit.
Variable axios_get : string -> Result Buffer.
Variable path_join : string -> string -> string.
Variable env : string -> option string.
Variable Ocean_getInstance : config.t -> Result ocean.t.
Variable sharp_metadata : Buffer -> Result imageMetadata.t.
Variable sharp_toBuffer : Buffer -> list Operation -> Result Buffer.
Variable toISOString_now : string.
Variable otherToString : Q -> string.

Notation "x <- m ;; k" := (bind FS m (fun x => k))
  (at level 61, m at next level, right associativity).
Notation "m ;;; k" := (bind FS m (fun _ => k))
  (at level 61, right associativity).

(** A call of the image library: it stays in the process, is not logged
    and leaves the file system alone. *)
Definition lift {A} (r : Result A) : M FS A := fun fs => ([], fs, r).

(** The object literal assigned to [config] in [initializeOcean]. *)
Definition oceanConfig : config.t :=
  {| config.metadataCacheUri :=
       orStr (env "OCEAN_METADATA_CACHE_URL") "https://aquarius.oceanprotocol.com";
     config.networkNodeUri := ToString (env "OCEAN_NODE_URL");
     config.providerUri := ToString (env "OCEAN_PROVIDER_URL");
     config.nodeUri := ToString (env "OCEAN_NODE_URL");
     config.web3Provider := None;
     config.verbose := true;
     config.chainId := parseIntAuto (env "OCEAN_CHAIN_ID") |}.

(** [initializeOcean()]: the SDK instance, or [null].  The call of the
    SDK's constructor is an external call, as the calls of the instance's
    methods are.  Here and below, the line that logs the stack trace of a
    caught error is left out. *)
Definition initializeOcean : M FS (option ocean.t) :=
  let oceanNodeUrl := env "OCEAN_NODE_URL" in
  let oceanProviderUrl := env "OCEAN_PROVIDER_URL" in
  let chainId := env "OCEAN_CHAIN_ID" in
  if negb (truthy oceanNodeUrl) || negb (truthy oceanProviderUrl) || negb (truthy chainId)
  then
    emit FS (LoggerError "OCEAN_NODE_URL, OCEAN_PROVIDER_URL, and OCEAN_CHAIN_ID must be set in environment variables for Ocean.js.") ;;;
    ret FS None
  else
    tryCatch FS
      (let cfg := oceanConfig in
       emit FS (LoggerLog "Ocean.js Config:") ;;;
       oc <- call FS (GetInstance cfg) (Ocean_getInstance cfg) ;;
       match ocean.provider oc with
       | Some _ => emit FS (LoggerLog "Ocean Provider initialized.")
       | None =>
           emit FS (LoggerWarn "Ocean Provider might not be initialized directly on Ocean instance. Direct Provider calls might need manual instantiation.")
       end ;;;
       ret FS (Some oc))
      (fun message =>
         emit FS (LoggerError ("Error initializing Ocean Protocol instance: " ++ message)) ;;;
         ret FS None).

(** The filter named by [filterType], as the [switch] queues it. *)
Definition filterOperations (effectiveFilterType : string) : list Operation :=
  if String.eqb effectiveFilterType "blur" then [blur 5]
  else if String.eqb effectiveFilterType "grayscale" then [grayscale]
  else if String.eqb effectiveFilterType "unsharp" then [sharpen 1 0 3 1 10 10]
  else [].

(** [applyFilterAndTextToBuffer(imageBuffer, filterType, textToAdd,
    textColorHex)]: the processed buffer, or [null]. *)
Definition applyFilterAndTextToBuffer (imageBuffer : option Buffer)
    (filterType textToAdd : option string) (textColorHex : string)
    : M FS (option Buffer) :=
  tryCatch FS
    (match imageBuffer with
     | None =>
         emit FS (LoggerError "Error: Image buffer is not provided.") ;;;
         ret FS None
     | Some input =>
         metadata <- lift (sharp_metadata input) ;;
         let imageWidth := imageMetadata.width metadata in
         let imageHeight := imageMetadata.height metadata in
         let effectiveFilterType :=
           if truthy filterType then toLowerCase (trim (ToString filterType))
           else "none" in
         filtered <-
           (if negb (String.eqb effectiveFilterType "none")
               && negb (String.eqb effectiveFilterType EmptyString)
            then
              emit FS (LoggerLog ("Applying filter: " ++ effectiveFilterType)) ;;;
              (if String.eqb effectiveFilterType "blur"
                  || String.eqb effectiveFilterType "grayscale"
                  || String.eqb effectiveFilterType "unsharp"
               then ret FS tt
               else emit FS (LoggerLog ("Unknown filter: '" ++ effectiveFilterType
                                        ++ "'. No filter applied."))) ;;;
              ret FS (filterOperations effectiveFilterType)
            else
              emit FS (LoggerLog "No specific filter applied or 'none' selected.") ;;;
              ret FS []) ;;
         operations <-
           (match imageWidth, imageHeight with
            | Some w, Some h =>
                if truthy textToAdd
                   && negb (String.eqb (trim (ToString textToAdd)) EmptyString)
                   && numberTruthy imageWidth && numberTruthy imageHeight
                then
                  emit FS (LoggerLog ("Adding text: " ++ DQ ++ ToString textToAdd ++ DQ
                                      ++ " with color " ++ textColorHex)) ;;;
                  ret FS (filtered
                          ++ [composite
                                (overlayText otherToString w h (ToString textToAdd)
                                   textColorHex) 0 0])%list
                else
                  emit FS (LoggerLog "No text to add, text input was blank, or image dimensions unavailable.") ;;;
                  ret FS filtered
            | _, _ =>
                emit FS (LoggerLog "No text to add, text input was blank, or image dimensions unavailable.") ;;;
                ret FS filtered
            end) ;;
         output <- lift (sharp_toBuffer input operations) ;;
         ret FS (Some output)
     end)
    (fun message =>
       emit FS (LoggerError ("Error processing image with Sharp: " ++ message)) ;;;
       ret FS None).

(** The [try] block of [main] that saves the processed image and the
    manifest. *)
Definition saveOutputs (outputDirectory : string) (filterToApply textToApply : option string)
    (processedImageBuffer : Buffer) : M FS unit :=
  tryCatch FS
    (present <- existsSync FS fs_existsSync outputDirectory ;;
     (if negb present then
        mkdirSync FS fs_mkdirSync outputDirectory ;;;
        emit FS (LoggerLog ("Created output directory: " ++ outputDirectory))
      else ret FS tt) ;;;
     let name := baseFilename filterToApply textToApply in
     let outputPath := path_join outputDirectory name in
     writeFile FS fs_writeFile outputPath processedImageBuffer ;;;
     emit FS (LoggerLog ("Image processed and saved successfully as " ++ outputPath)) ;;;
     let json :=
       resultsJson toISOString_now (orStr (env "ALGORITHM_DID") "unknown")
         (orStr (env "JOB_ID") "unknown") name
         (Z.of_nat (List.length processedImageBuffer)) in
     writeFile FS fs_writeFile (path_join outputDirectory "results.json")
       (list_byte_of_string json) ;;;
     emit FS (LoggerLog ("Results metadata saved to "
                         ++ path_join outputDirectory "results.json")))
    (fun message =>
       emit FS (LoggerError ("Error creating output directory or saving image/metadata to "
                             ++ outputDirectory ++ ": " ++ message))).

(** [main()]. *)
Definition main : M FS unit :=
  emit FS (LoggerLog "Starting image processing script (Ocean C2D enhanced)...") ;;;
  oceanInstance <-
    (if truthy (orElse (env "INPUT_DID_0") (env "ENABLE_OCEAN_FEATURES")) then
       oc <- initializeOcean ;;
       match oc with
       | None =>
           emit FS (LoggerError "Failed to initialize Ocean Protocol. Proceeding without Ocean capabilities if possible.")
       | Some _ => emit FS (LoggerLog "Ocean Protocol instance initialized successfully.")
       end ;;;
       ret FS oc
     else ret FS None) ;;
  let filterToApply := orElse (env "INPUT_FILTERTYPE") (env "DEFAULT_FILTER") in
  let textToApply := orElse (env "INPUT_TEXT") (env "DEFAULT_TEXT") in
  let colorForText :=
    orStr (orElse (env "INPUT_TEXT_COLOR") (env "DEFAULT_TEXT_COLOR")) "#00DD00" in
  let outputDirectory :=
    orStr (orElse (env "OUTPUT_DIR") (env "RESULTS_DIR")) "/data/outputs" in
  emit FS (LoggerLog "Configuration:") ;;;
  emit FS (LoggerLog ("  Input File Path (C2D): '"
                      ++ orStr (env "INPUT_FILE_PATH_0") "not set" ++ "'")) ;;;
  emit FS (LoggerLog ("  Input DID (C2D): '" ++ orStr (env "INPUT_DID_0") "not set" ++ "'")) ;;;
  emit FS (LoggerLog ("  Input Image URL (Legacy/Fallback): '"
                      ++ orStr (orElse (env "INPUT_IMAGE_URL") (env "IMAGE_URL")) "not set"
                      ++ "'")) ;;;
  emit FS (LoggerLog ("  Filter: '" ++ orStr filterToApply "none" ++ "'")) ;;;
  emit FS (LoggerLog ("  Text: '" ++ orStr textToApply "none" ++ "'")) ;;;
  emit FS (LoggerLog ("  TextColor: '" ++ colorForText ++ "'")) ;;;
  emit FS (LoggerLog ("  OutputDir: '" ++ outputDirectory ++ "'")) ;;;
  imageBufferToProcess <-
    getImageBuffer FS fs_existsSync fs_readFile fs_writeFile fs_mkdirSync axios_get
      path_join env oceanInstance ;;
  match imageBufferToProcess with
  | None => emit FS (LoggerError "Fatal: Could not obtain image buffer. Cannot proceed.")
  | Some _ =>
      processedImageBuffer <-
        applyFilterAndTextToBuffer imageBufferToProcess filterToApply textToApply
          colorForText ;;
      match processedImageBuffer with
      | Some processed => saveOutputs outputDirectory filterToApply textToApply processed
      | None =>
          emit FS (LoggerLog "Image processing failed or resulted in no image buffer. No image was saved.")
      end
  end.

End World.

End Script.

(** * Further definitions for stating properties of node/server.js *)

Module ExtraSpec.
Import JS Server.

(** The five characters [xmlEscape] replaces. *)
Definition specialCharacters : list ascii :=
  ["<"%char; ">"%char; "&"%char; "039"%char; "034"%char].

(** The encoder call of each output format. *)
Definition encoderTable : list (string * Encoder) :=
  [("jpeg", jpeg 85); ("png", png 6); ("webp", webp 85); ("avif", avif 60);
   ("tiff", tiff 85); ("gif", toFormat "gif")].

(** A field that is the empty string, made absent. *)
Definition absentIfEmpty (v : option string) : option string := orElse v None.

Definition optionsWithoutEmpty (o : options.t) : options.t :=
  {| options.fontFamily := absentIfEmpty (options.fontFamily o);
     options.fontSize := absentIfEmpty (options.fontSize o);
     options.fontColor := absentIfEmpty (options.fontColor o);
     options.strokeColor := absentIfEmpty (options.strokeColor o);
     options.strokeWidth := absentIfEmpty (options.strokeWidth o);
     options.xPosition := absentIfEmpty (options.xPosition o);
     options.yPosition := absentIfEmpty (options.yPosition o);
     options.textAlign := absentIfEmpty (options.textAlign o);
     options.dominantBaseline := absentIfEmpty (options.dominantBaseline o);
     options.outputFormat := absentIfEmpty (options.outputFormat o) |}.

(** The body with every optional field that is the empty string made
    absent; the text field is left as it is. *)
Definition bodyWithoutEmptyOptions (b : body.t) : body.t :=
  {| body.text := body.text b;
     body.fontFamily := absentIfEmpty (body.fontFamily b);
     body.fontSize := absentIfEmpty (body.fontSize b);
     body.fontColor := absentIfEmpty (body.fontColor b);
     body.strokeColor := absentIfEmpty (body.strokeColor b);
     body.strokeWidth := absentIfEmpty (body.strokeWidth b);
     body.xPosition := absentIfEmpty (body.xPosition b);
     body.yPosition := absentIfEmpty (body.yPosition b);
     body.textAlign := absentIfEmpty (body.textAlign b);
     body.dominantBaseline := absentIfEmpty (body.dominantBaseline b);
     body.outputFormat := absentIfEmpty (body.outputFormat b) |}.

(** The options with another output format. *)
Definition withOutputFormat (o : options.t) (f : option string) : options.t :=
  {| options.fontFamily := options.fontFamily o;
     options.fontSize := options.fontSize o;
     options.fontColor := options.fontColor o;
     options.strokeColor := options.strokeColor o;
     options.strokeWidth := options.strokeWidth o;
     options.xPosition := options.xPosition o;
     options.yPosition := options.yPosition o;
     options.textAlign := options.textAlign o;
     options.dominantBaseline := options.dominantBaseline o;
     options.outputFormat := f |}.

(** The format the validation step receives. *)
Definition candidateFormat (m : metadata.t) (o : options.t) : string :=
  toLowerCase (orStr (orElse (options.outputFormat o) (metadata.format m)) "png").

Definition isConsoleWarn (e : Event) : bool :=
  match e with
  | ConsoleWarn _ => true
  | _ => false
  end.

End ExtraSpec.

(** * Further definitions for stating properties of image-processing.js *)

Module ScriptExtraSpec.
Import JS ImageProcessing ScriptSpec Script.

(** The characters of a safe file name: lower-case letters, digits, the
    underscore and the dot. *)
Definition isFileNameChar (c : ascii) : bool :=
  let n := code c in
  ((97 <=? n)%nat && (n <=? 122)%nat) || ((48 <=? n)%nat && (n <=? 57)%nat)
  || (n =? 95)%nat || (n =? 46)%nat.

Fixpoint allChars (p : ascii -> bool) (s : string) : bool :=
  match s with
  | EmptyString => true
  | String c s' => p c && allChars p s'
  end.

(** The filter operations the script can queue. *)
Definition filterChoices : list (list Operation) :=
  [[]; [blur 5]; [grayscale]; [sharpen 1 0 3 1 10 10]].

(** A computation that, from the state [fs], returns without throwing,
    leaves the state as it is and makes no external call; [P] holds of what
    it returns. *)
Definition quietly {FS A} (m : M FS A) (fs : FS) (P : A -> Prop) : Prop :=
  exists l r, m fs = (l, fs, Ok r) /\ externalCalls l = [] /\ P r.

(** A computation that, from the state [fs], returns without throwing and
    leaves the state as it is; its external calls are [calls] and [P] holds
    of what it returns. *)
Definition runs {FS A} (m : M FS A) (fs : FS) (calls : list Event)
    (P : A -> Prop) : Prop :=
  exists l r, m fs = (l, fs, Ok r) /\ externalCalls l = calls /\ P r.

(** A computation that never throws. *)
Definition neverThrows {FS A} (m : M FS A) : Prop :=
  forall fs, exists r, value (m fs) = Ok r.

(** The three variables [initializeOcean] requires are set. *)
Definition oceanConfigured (env : string -> option string) : bool :=
  truthy (env "OCEAN_NODE_URL") && truthy (env "OCEAN_PROVIDER_URL")
  && truthy (env "OCEAN_CHAIN_ID").

(** The call of the SDK's constructor with which [main] begins, if it makes
    one: [main] initialises the SDK when an asset identifier or
    [ENABLE_OCEAN_FEATURES] is set, and [initializeOcean] calls the
    constructor when its three variables are set. *)
Definition constructorCalls (env : string -> option string) : list Event :=
  if truthy (orElse (env "INPUT_DID_0") (env "ENABLE_OCEAN_FEATURES"))
     && oceanConfigured env
  then [GetInstance (oceanConfig env)]
  else [].

(** An instance, or [null] when the constructor threw. *)
Definition instanceOrNull (r : Result ocean.t) : option ocean.t :=
  match r with
  | Ok oc => Some oc
  | Throw _ => None
  end.

(** Worlds for concrete runs: a file system without state in which nothing
    exists and every operation succeeds, an HTTP client that answers every
    request with one byte, and an image library that reports a 400 by 300
    image and returns its input. *)
Definition nothingExists : unit -> string -> bool := fun _ _ => false.
Definition readsEmpty : unit -> string -> Result Buffer := fun _ _ => Ok [].
Definition writes : unit -> string -> Buffer -> unit * Result unit :=
  fun _ _ _ => (tt, Ok tt).
Definition makesDir : unit -> string -> unit * Result unit := fun _ _ => (tt, Ok tt).
Definition answersOneByte : string -> Result Buffer := fun _ => Ok [Byte.x00].
Definition joinWithSlash : string -> string -> string := fun a b => a ++ "/" ++ b.
Definition noInstance : config.t -> Result ocean.t := fun _ => Throw "unreachable".
Definition reports400x300 : Buffer -> Result imageMetadata.t :=
  fun _ => Ok (imageMetadata.mk (Some 400%Z) (Some 300%Z)).
Definition returnsInput : Buffer -> list Operation -> Result Buffer :=
  fun input _ => Ok input.

Definition envAssetOnly (name : string) : option string :=
  if String.eqb name "INPUT_DID_0" then Some "did:op:1234" else None.

Definition envUrlOnly (name : string) : option string :=
  if String.eqb name "INPUT_IMAGE_URL" then Some "https://example.org/image.png"
  else None.

Definition envOcean (name : string) : option string :=
  if String.eqb name "OCEAN_NODE_URL" then Some "https://node.example.org"
  else if String.eqb name "OCEAN_PROVIDER_URL" then Some "https://provider.example.org"
  else if String.eqb name "OCEAN_CHAIN_ID" then Some "0x89"
  else None.

(** An environment with one more variable set. *)
Definition withVariable (name value : string) (env : string -> option string)
    (n : string) : option string :=
  if String.eqb n name then Some value else env n.

(** The SDK's variables set, with a local path, with an asset identifier,
    and with a URL. *)
Definition envOceanAndFile : string -> option string :=
  withVariable "ENABLE_OCEAN_FEATURES" "true"
    (withVariable "INPUT_FILE_PATH_0" "/data/inputs/0/image.png" envOcean).

Definition envOceanAndAsset : string -> option string :=
  withVariable "INPUT_DID_0" "did:op:1234" envOcean.

Definition envOceanAndUrl : string -> option string :=
  withVariable "ENABLE_OCEAN_FEATURES" "true"
    (withVariable "INPUT_IMAGE_URL" "https://example.org/image.png" envOcean).

(** An SDK instance whose asset has one [access] service and one file. *)
Definition demoProvider : provider.t :=
  provider.mk (fun _ _ _ =>
    Ok (Some [fileObject.mk (Some "https://files.example.org/a.png")])).

(** An SDK instance that knows no asset. *)
Definition emptyOcean : ocean.t := ocean.mk (fun _ => Ok None) None.

Definition demoOcean : ocean.t :=
  ocean.mk
    (fun did => Ok (Some (ddo.mk did [service.mk "compute-1" "compute";
                                      service.mk "access-1" "access"])))
    (Some demoProvider).

End ScriptExtraSpec.

(** * Properties of node/server.js *)

Module ServerProofs.
Import JS Server Spec.

(** ** The primitives on concrete inputs *)

Example parseInt_examples :
  parseInt (Some "70") = Some 70%Z
  /\ parseInt (Some "  -12px") = Some (-12)%Z
  /\ parseInt (Some "+7") = Some 7%Z
  /\ parseInt (Some "0x10") = Some 0%Z
  /\ parseInt (Some "abc") = None
  /\ parseInt (Some EmptyString) = None
  /\ parseInt None = None.
Proof. repeat split. Qed.

(** [parseInt] passes over white space of every kind, and over nothing
    else. *)
Example parseInt_white_space :
  parseInt (Some (NBSP ++ "-5")) = Some (-5)%Z
  /\ parseInt (Some (String "160" "-5")) = Some (-5)%Z
  /\ parseInt (Some (BOM ++ LS ++ IDEOGRAPHIC_SPACE ++ " 12")) = Some 12%Z
  /\ parseInt (Some (A_GRAVE ++ "7")) = None.
Proof. repeat split. Qed.

Example trim_examples :
  trim (NBSP ++ " Blur" ++ IDEOGRAPHIC_SPACE) = "Blur"
  /\ trim (A_GRAVE ++ " ") = A_GRAVE
  /\ trim (" a b" ++ NL) = "a b"
  /\ trim (BOM ++ LS) = EmptyString.
Proof. repeat split. Qed.

Example toLowerCase_example : toLowerCase "JpG" = "jpg".
Proof. reflexivity. Qed.

Example numberToString_example :
  numberToString (fun _ => "1.25") (300 / 12) = "25"
  /\ numberToString (fun _ => "1.25") (25 / 20) = "1.25".
Proof. split; reflexivity. Qed.

Example xmlEscape_example :
  xmlEscape (Some ("a<b>&" ++ DQ ++ "c'")) = "a&lt;b&gt;&amp;&quot;c&apos;".
Proof. reflexivity. Qed.

Example JSON_stringify_example :
  JSON_stringify_string ("a" ++ DQ ++ "b" ++ NL) = DQ ++ "a" ++ BS ++ DQ ++ "b" ++ BS ++ "n" ++ DQ.
Proof. reflexivity. Qed.

(** ** Strings *)

Lemma lacks_app c a b : lacks c (a ++ b) = lacks c a && lacks c b.
Proof.
  induction a as [|d a IH]; simpl; [reflexivity|].
  rewrite IH. now rewrite andb_assoc.
Qed.

Lemma append_assoc (a b c : string) : (a ++ b) ++ c = a ++ b ++ c.
Proof. induction a as [|d a IH]; simpl; [reflexivity | now rewrite IH]. Qed.

Lemma contains_later s pre rest sub :
  s = pre ++ rest -> contains rest sub -> contains s sub.
Proof.
  intros -> (p & q & ->). exists (pre ++ p), q.
  now rewrite append_assoc.
Qed.

Lemma startsWith_other_head a p c s :
  a <> c -> startsWith (String a p) (String c s) = false.
Proof. intros H. simpl. destruct (Ascii.eqb_spec a c); [contradiction | reflexivity]. Qed.

Lemma contains_skip c s sub : contains s sub -> contains (String c s) sub.
Proof. intros (p & q & ->). now exists (String c p), q. Qed.

Lemma contains_skip_app a s sub : contains s sub -> contains (a ++ s) sub.
Proof. intros H. now apply (contains_later _ a s). Qed.

Lemma contains_here_normal s sub post r :
  sub ++ post = r -> s = r -> contains s sub.
Proof. intros <- ->. now exists EmptyString, post. Qed.

(** Finds a substring of a concatenation of literals and variables; the
    substring starts with a literal character. *)
Ltac locate_from_here :=
  lazymatch goal with
  | |- contains (String ?c _) (String ?c _) =>
      first
        [ solve [ eapply contains_here_normal;
                  [ cbn [append]; repeat (rewrite append_assoc; cbn [append]);
                    reflexivity
                  | reflexivity ] ]
        | apply contains_skip; locate_from_here ]
  | |- contains (String _ _) _ => apply contains_skip; locate_from_here
  | |- contains (_ ++ _) _ => apply contains_skip_app; locate_from_here
  end.

Ltac locate :=
  lazymatch goal with
  | |- contains ?s ?sub =>
      let s' := eval cbn [append] in s in
      let sub' := eval cbn [append] in sub in
      change (contains s' sub'); locate_from_here
  end.

Lemma occurrences_skip pat0 pat a b :
  lacks pat0 a = true ->
  occurrences (String pat0 pat) (a ++ b) = occurrences (String pat0 pat) b.
Proof.
  intros H. induction a as [|d a IH]; [reflexivity|].
  cbn [lacks] in H. apply andb_true_iff in H as [Hd Ha].
  cbn [append occurrences startsWith].
  rewrite Ascii.eqb_sym in Hd. apply negb_true_iff in Hd.
  now rewrite Hd, IH.
Qed.

Lemma lacks_orStr c v d :
  (forall s, v = Some s -> lacks c s = true) -> lacks c d = true ->
  lacks c (orStr v d) = true.
Proof.
  intros Hv Hd. destruct v as [[|a s]|]; simpl; auto.
  now apply (Hv (String a s)).
Qed.

Lemma uint_lacks c d :
  In c ["<"%char; ">"%char; "&"%char; "039"%char; "034"%char] ->
  lacks c (NilEmpty.string_of_uint d) = true.
Proof.
  intros Hc. induction d; simpl; rewrite ?IHd; try reflexivity;
    simpl in Hc; destruct Hc as [<-|[<-|[<-|[<-|[<-|[]]]]]]; reflexivity.
Qed.

Lemma intToString_lacks c z :
  In c ["<"%char; ">"%char; "&"%char; "039"%char; "034"%char] ->
  lacks c (intToString z) = true.
Proof.
  intros Hc.
  assert (Hm : lacks c "-" = true)
    by (simpl in Hc; destruct Hc as [<-|[<-|[<-|[<-|[<-|[]]]]]]; reflexivity).
  assert (H0 : lacks c "0" = true)
    by (simpl in Hc; destruct Hc as [<-|[<-|[<-|[<-|[<-|[]]]]]]; reflexivity).
  assert (Hu : forall d, lacks c (NilZero.string_of_uint d) = true).
  { intros d. unfold NilZero.string_of_uint.
    destruct d; [exact H0 | cbv beta iota; now apply uint_lacks ..]. }
  unfold intToString, NilZero.string_of_int.
  destruct (Z.to_int z) as [d|d]; [apply Hu|].
  change (String "-" ?x) with ("-" ++ x). now rewrite lacks_app, Hm, Hu.
Qed.

Lemma numberToString_lacks c f q :
  In c ["<"%char; ">"%char; "&"%char; "039"%char; "034"%char] ->
  (forall r, lacks c (f r) = true) ->
  lacks c (numberToString f q) = true.
Proof.
  intros Hc Hf. unfold numberToString.
  destruct (_ && _); [now apply intToString_lacks | apply Hf].
Qed.

(** ** xmlEscape *)

(** The five cases of a character met by [replaceAll]. *)
Ltac by_character c :=
  unfold matchesClass, replacement, entityOf, namedEntities;
  destruct (Ascii.eqb_spec c "<"); [subst c|];
  [|destruct (Ascii.eqb_spec c ">"); [subst c|];
    [|destruct (Ascii.eqb_spec c "&"); [subst c|];
      [|destruct (Ascii.eqb_spec c "039"); [subst c|];
        [|destruct (Ascii.eqb_spec c "034"); [subst c|]]]]].

Lemma replaceAll_spec s : replaceAll s = escapeBySpec s.
Proof.
  induction s as [|c s IH]; simpl; [reflexivity|].
  rewrite IH. f_equal. by_character c; reflexivity.
Qed.

Lemma replaceAll_lacks s x :
  In x ["<"%char; ">"%char; "039"%char; "034"%char] ->
  lacks x (replaceAll s) = true.
Proof.
  intros Hx. induction s as [|c s IH]; simpl; [reflexivity|].
  rewrite lacks_app, IH, andb_true_r.
  by_character c; simpl in Hx;
    try (destruct Hx as [<-|[<-|[<-|[<-|[]]]]]; reflexivity).
  simpl. rewrite andb_true_r.
  destruct (Ascii.eqb_spec c x) as [->|]; [|reflexivity].
  destruct Hx as [<-|[<-|[<-|[<-|[]]]]]; congruence.
Qed.

Lemma replaceAll_ampersands s : ampersandsOpenEntities (replaceAll s) = true.
Proof.
  induction s as [|c s IH]; simpl; [reflexivity|].
  by_character c; simpl; rewrite ?IH; try reflexivity.
  destruct (Ascii.eqb_spec c "&"); [contradiction|]. reflexivity.
Qed.


Lemma unescapeFrom_plain c s :
  c <> "&"%char -> unescapeFrom 0 (String c s) = String c (unescapeFrom 0 s).
Proof.
  intros H. cbn [unescapeFrom].
  now rewrite !startsWith_other_head by congruence.
Qed.

Lemma unescape_replaceAll s : xmlUnescape (replaceAll s) = s.
Proof.
  unfold xmlUnescape.
  induction s as [|c s IH]; [reflexivity|].
  cbn [replaceAll]. by_character c.
  1-5: simpl; now rewrite IH.
  cbn [orb append]. now rewrite unescapeFrom_plain, IH.
Qed.

Lemma contains_inner s a b c : contains s (a ++ b ++ c) -> contains s b.
Proof.
  intros (p & q & ->). exists (p ++ a), (c ++ q).
  now rewrite !append_assoc.
Qed.

Lemma svgText_text_node f m t :
  contains (svgText f m t) (">" ++ textOpts.text t ++ "</text>").
Proof. unfold svgText, NL, DQ. locate. Qed.

Lemma svgText_font_size f m t :
  contains (svgText f m t)
    ("font-size: " ++ numberToString f (textOpts.fontSize t) ++ "px;").
Proof. unfold svgText, NL, DQ. locate. Qed.

(** C2.  The text node holds the text (or the placeholder when the text
    is empty) with each of the five special characters replaced by its
    named entity and every other character kept: it holds no raw
    less-than or greater-than sign, apostrophe or double quote, every
    ampersand in it opens one of the five entities, and reading the
    entities back gives the text again.  The markup carries that node
    between the opening tag of the text element and its closing tag. *)
Theorem xmlEscape_text_node (otherToString : Q -> string) (m : metadata.t)
    (textValue : option string) (o : options.t) :
  let t := resolvedTextOpts m textValue o in
  let shown := orStr textValue "Sample Text" in
  textOpts.text t = escapeBySpec shown
  /\ lacks "<" (textOpts.text t) = true
  /\ lacks ">" (textOpts.text t) = true
  /\ lacks "039" (textOpts.text t) = true
  /\ lacks "034" (textOpts.text t) = true
  /\ ampersandsOpenEntities (textOpts.text t) = true
  /\ xmlUnescape (textOpts.text t) = shown
  /\ contains (svgText otherToString m t) (">" ++ textOpts.text t ++ "</text>").
Proof.
  intros t shown.
  assert (E : textOpts.text t = replaceAll shown) by reflexivity.
  rewrite E.
  split; [apply replaceAll_spec|].
  do 4 (split; [apply replaceAll_lacks; simpl; tauto|]).
  split; [apply replaceAll_ampersands|].
  split; [apply unescape_replaceAll|].
  rewrite <- E. apply svgText_text_node.
Qed.

(** ** Output format *)

Lemma includes_In l x : includes l x = true <-> In x l.
Proof.
  induction l as [|y l IH]; simpl; [intuition discriminate|].
  rewrite orb_true_iff, IH, String.eqb_eq. tauto.
Qed.

Lemma whitelist_validFormats x : includes whitelist x = includes validFormats x.
Proof.
  apply eq_true_iff_eq. rewrite !includes_In. simpl. tauto.
Qed.

Lemma format_of_supplied m textValue o c s :
  options.outputFormat o = Some (String c s) ->
  textOpts.outputFormat (resolvedTextOpts m textValue o)
  = sanitizeFormat (toLowerCase (String c s)).
Proof. intros H. unfold resolvedTextOpts. simpl. now rewrite H. Qed.

Lemma format_of_detected m textValue o :
  truthy (options.outputFormat o) = false ->
  textOpts.outputFormat (resolvedTextOpts m textValue o)
  = sanitizeFormat (toLowerCase (orStr (metadata.format m) "png")).
Proof.
  intros H. unfold resolvedTextOpts. cbn [textOpts.set_outputFormat
    textOpts.outputFormat initialTextOpts].
  unfold orElse. now rewrite H.
Qed.

Lemma sanitizeFormat_whitelisted f :
  In f whitelist ->
  In (sanitizeFormat f) supportedFormats
  /\ (f = "jpg" -> sanitizeFormat f = "jpeg")
  /\ (f <> "jpg" -> sanitizeFormat f = f).
Proof.
  intros Hf. simpl in Hf.
  destruct Hf as [<-|[<-|[<-|[<-|[<-|[<-|[<-|[]]]]]]]];
    split; try (vm_compute; tauto);
    split; intros H; try reflexivity; try discriminate H;
    exfalso; now apply H.
Qed.

Lemma sanitizeFormat_other f :
  includes whitelist f = false -> sanitizeFormat f = "png".
Proof.
  intros H. unfold sanitizeFormat. rewrite <- whitelist_validFormats, H.
  reflexivity.
Qed.

Lemma sanitizeFormat_supported f : In (sanitizeFormat f) supportedFormats.
Proof.
  destruct (includes whitelist f) eqn:E.
  - now apply sanitizeFormat_whitelisted, includes_In.
  - rewrite sanitizeFormat_other by assumption. simpl. tauto.
Qed.

(** C1 (as amended).  A supplied, non-empty format string that is in the
    whitelist after case-folding resolves to a supported format: [jpg] to
    [jpeg], any other to itself in lower case.  A supplied, non-empty
    string outside the whitelist resolves to [png].  When no format is
    supplied, or the empty string is, the detected format takes its
    place and is resolved by the same rules: a detected supported format
    is kept, a detected format outside the whitelist gives [png], and so
    does a missing one. *)
Theorem outputFormat_resolution (m : metadata.t) (textValue : option string)
    (o : options.t) :
  let resolved := textOpts.outputFormat (resolvedTextOpts m textValue o) in
  (forall s, options.outputFormat o = Some s ->
     includes whitelist (toLowerCase s) = true ->
     In resolved supportedFormats
     /\ (toLowerCase s = "jpg" -> resolved = "jpeg")
     /\ (toLowerCase s <> "jpg" -> resolved = toLowerCase s))
  /\ (forall s, options.outputFormat o = Some s -> s <> EmptyString ->
      includes whitelist (toLowerCase s) = false -> resolved = "png")
  /\ (truthy (options.outputFormat o) = false ->
      (truthy (metadata.format m) = false -> resolved = "png")
      /\ (forall d, metadata.format m = Some d -> In d supportedFormats ->
          resolved = d)
      /\ (forall d, metadata.format m = Some d ->
          includes whitelist (toLowerCase d) = false -> resolved = "png")
      /\ (forall o', options.outputFormat o' = metadata.format m ->
          resolved = textOpts.outputFormat (resolvedTextOpts m textValue o'))).
Proof.
  intros resolved. subst resolved. split; [|split].
  - intros s Hs Hin. destruct s as [|c s]; [discriminate|].
    rewrite (format_of_supplied _ _ _ _ _ Hs).
    now apply sanitizeFormat_whitelisted, includes_In.
  - intros s Hs Hne Hout. destruct s as [|c s]; [contradiction|].
    rewrite (format_of_supplied _ _ _ _ _ Hs).
    now apply sanitizeFormat_other.
  - intros Hno. rewrite format_of_detected by assumption.
    split; [|split; [|split]].
    + intros Hd.
      destruct (metadata.format m) as [[|c d]|]; try discriminate; reflexivity.
    + intros d -> Hin. simpl in Hin.
      destruct Hin as [<-|[<-|[<-|[<-|[<-|[<-|[]]]]]]]; reflexivity.
    + intros d -> Hout. destruct d as [|c d]; [reflexivity|].
      now apply sanitizeFormat_other.
    + intros o' Ho'.
      destruct (metadata.format m) as [[|c d]|] eqn:E.
      * now rewrite format_of_detected, E by now rewrite Ho'.
      * now rewrite (format_of_supplied _ _ _ _ _ Ho').
      * now rewrite format_of_detected, E by now rewrite Ho'.
Qed.

Lemma outputFormat_resolution_witness :
  (includes whitelist (toLowerCase "JPG") = true
   /\ textOpts.outputFormat
        (resolvedTextOpts (metadata.mk 400 300 (Some "png")) (Some "Hi")
           (options.mk None None None None None None None None None (Some "JPG")))
      = "jpeg")
  /\ (includes whitelist (toLowerCase "bmp") = false
      /\ textOpts.outputFormat
           (resolvedTextOpts (metadata.mk 400 300 (Some "png")) (Some "Hi")
              (options.mk None None None None None None None None None (Some "bmp")))
         = "png")
  /\ textOpts.outputFormat
       (resolvedTextOpts (metadata.mk 400 300 (Some "gif")) (Some "Hi") noOptions)
     = "gif".
Proof.
  split; [|split].
  - split; [reflexivity|].
    apply (proj1 (outputFormat_resolution
                    (metadata.mk 400 300 (Some "png")) (Some "Hi")
                    (options.mk None None None None None None None None None
                       (Some "JPG"))) "JPG" eq_refl eq_refl).
    reflexivity.
  - split; [reflexivity|].
    apply (proj1 (proj2 (outputFormat_resolution
                    (metadata.mk 400 300 (Some "png")) (Some "Hi")
                    (options.mk None None None None None None None None None
                       (Some "bmp")))) "bmp" eq_refl); [discriminate | reflexivity].
  - apply (proj2 (proj2 (outputFormat_resolution
                    (metadata.mk 400 300 (Some "gif")) (Some "Hi") noOptions))
             eq_refl).
    + reflexivity.
    + simpl. tauto.
Defined.

(** C1 as stated fails twice.  An image detected as [heif] (what the image
    library reports for an AVIF file) with no format supplied resolves to
    [png], not to the detected format; and a supplied empty string, which
    is outside the whitelist, resolves to the detected [jpeg], not to
    [png]. *)
Lemma outputFormat_resolution_counterexample :
  ~ formatResolution_as_stated (metadata.mk 400 300 (Some "heif")) noOptions
  /\ ~ formatResolution_as_stated (metadata.mk 400 300 (Some "jpeg"))
        (options.mk None None None None None None None None None (Some EmptyString)).
Proof.
  split; intros H; vm_compute in H; discriminate H.
Qed.

(** ** Font size and stroke width *)

Lemma Qmin_inject_Z a b : Qmin (inject_Z a) (inject_Z b) = inject_Z (Z.min a b).
Proof.
  unfold Qmin, GenericMinMax.gmin, Z.min, Qcompare. simpl.
  rewrite !Z.mul_1_r. now destruct (a ?= b)%Z.
Qed.

Lemma defaultFontSize_lower_bound m : 20 <= defaultFontSize m.
Proof. unfold defaultFontSize, Math_max. apply Q.le_max_l. Qed.

(** C3.  Without a [fontSize] field the resolved font size is
    [max(20, min(width, height) / 12)]. *)
Theorem fontSize_default (m : metadata.t) (textValue : option string)
    (o : options.t) :
  options.fontSize o = None ->
  textOpts.fontSize (resolvedTextOpts m textValue o)
  = Qmax 20 (inject_Z (Z.min (metadata.width m) (metadata.height m)) / 12).
Proof.
  intros H. unfold resolvedTextOpts. simpl.
  unfold currentFontSize. rewrite H. cbn.
  unfold defaultFontSize, Math_max, Math_min. now rewrite Qmin_inject_Z.
Qed.

(** C4.  Without a [strokeWidth] field the resolved stroke width is
    [max(1, fontSize / 20)] of the resolved font size. *)
Theorem strokeWidth_default (m : metadata.t) (textValue : option string)
    (o : options.t) :
  options.strokeWidth o = None ->
  textOpts.strokeWidth (resolvedTextOpts m textValue o)
  = Qmax 1 (textOpts.fontSize (resolvedTextOpts m textValue o) / 20).
Proof.
  intros H. unfold resolvedTextOpts. simpl.
  unfold resolvedStrokeWidth. rewrite H. reflexivity.
Qed.

Lemma inject_Z_pos z : (0 < z)%Z -> 0 < inject_Z z.
Proof. intros H. unfold Qlt. simpl. lia. Qed.

Lemma inject_Z_nonneg z : (0 <= z)%Z -> 0 <= inject_Z z.
Proof. intros H. unfold Qle. simpl. lia. Qed.

Lemma defaultFontSize_pos m : 0 < defaultFontSize m.
Proof.
  apply Qlt_le_trans with 20; [reflexivity | apply defaultFontSize_lower_bound].
Qed.

Lemma defaultStrokeWidth_pos q : 0 < Math_max 1 q.
Proof.
  apply Qlt_le_trans with 1; [reflexivity | apply Q.le_max_l].
Qed.

(** C5 (as amended).  The resolved output format is always a supported
    one and the resolved stroke width is never negative; it is positive
    unless the supplied [strokeWidth] parses to zero.  The resolved font
    size is positive whenever the supplied [fontSize] does not parse to a
    negative integer. *)
Theorem resolved_options_invariant (m : metadata.t) (textValue : option string)
    (o : options.t) :
  let t := resolvedTextOpts m textValue o in
  In (textOpts.outputFormat t) supportedFormats
  /\ 0 <= textOpts.strokeWidth t
  /\ (parseInt (options.strokeWidth o) <> Some 0%Z -> 0 < textOpts.strokeWidth t)
  /\ ((forall z, parseInt (options.fontSize o) = Some z -> (0 <= z)%Z) ->
      0 < textOpts.fontSize t).
Proof.
  intros t. subst t. unfold resolvedTextOpts.
  cbn [textOpts.set_outputFormat textOpts.outputFormat textOpts.strokeWidth
       textOpts.fontSize initialTextOpts].
  split; [apply sanitizeFormat_supported|].
  unfold resolvedStrokeWidth, currentFontSize.
  split; [|split].
  - destruct (parseInt (options.strokeWidth o)) as [z|].
    + destruct (Z.leb_spec 0 z);
        [now apply inject_Z_nonneg | apply Qlt_le_weak, defaultStrokeWidth_pos].
    + apply Qlt_le_weak, defaultStrokeWidth_pos.
  - intros Hz. destruct (parseInt (options.strokeWidth o)) as [z|].
    + destruct (Z.leb_spec 0 z); [|apply defaultStrokeWidth_pos].
      apply inject_Z_pos. assert (z <> 0%Z) by congruence. lia.
    + apply defaultStrokeWidth_pos.
  - intros Hz. destruct (parseInt (options.fontSize o)) as [z|].
    + destruct (Z.eqb_spec z 0); [apply defaultFontSize_pos|].
      apply inject_Z_pos. specialize (Hz z eq_refl). lia.
    + apply defaultFontSize_pos.
Qed.

Lemma resolved_options_invariant_witness :
  (parseInt (Some "2") <> Some 0%Z /\ forall z, parseInt (Some "70") = Some z -> (0 <= z)%Z)
  /\ 0 < textOpts.strokeWidth
          (resolvedTextOpts (metadata.mk 400 300 (Some "png")) (Some "Hi")
             (options.mk None (Some "70") None None (Some "2") None None None None None))
  /\ 0 < textOpts.fontSize
          (resolvedTextOpts (metadata.mk 400 300 (Some "png")) (Some "Hi")
             (options.mk None (Some "70") None None (Some "2") None None None None None)).
Proof.
  assert (Hs : parseInt (Some "2") <> Some 0%Z) by (vm_compute; discriminate).
  assert (Hf : forall z, parseInt (Some "70") = Some z -> (0 <= z)%Z)
    by (intros z H; vm_compute in H; injection H as <-; lia).
  split; [split; assumption|].
  pose proof (resolved_options_invariant
                (metadata.mk 400 300 (Some "png")) (Some "Hi")
                (options.mk None (Some "70") None None (Some "2") None None None
                   None None)) as (_ & _ & Hsw & Hfs).
  split; [exact (Hsw Hs) | exact (Hfs Hf)].
Defined.

(** C5 as stated fails twice.  A supplied [fontSize] of [-5] is taken as
    it is, so the font size is negative; a supplied [strokeWidth] of [0]
    is taken as it is, so the stroke width is not strictly positive. *)
Lemma resolved_options_invariant_counterexample :
  ~ resolvedInvariant_as_stated (metadata.mk 400 300 (Some "png"))
      (options.mk None (Some "-5") None None None None None None None None)
  /\ ~ resolvedInvariant_as_stated (metadata.mk 400 300 (Some "png"))
        (options.mk None None None None (Some "0") None None None None None).
Proof.
  split.
  - intros (H & _). vm_compute in H. discriminate H.
  - intros (_ & H & _). vm_compute in H. discriminate H.
Qed.

(** White space before the number changes nothing: a [fontSize] of a
    no-break space followed by [-5] is taken as [-5] as well, and a
    [strokeWidth] of a no-break space followed by [0] as [0]. *)
Example options_after_white_space :
  let t :=
    resolvedTextOpts (metadata.mk 400 300 (Some "png")) None
      (options.mk None (Some (NBSP ++ "-5")) None None (Some (NBSP ++ "0")) None None
         None None None) in
  textOpts.fontSize t == -5 /\ textOpts.strokeWidth t == 0.
Proof. split; reflexivity. Qed.

(** ** The markup *)

Lemma copied_lack_orStr c o v d :
  (forall s, In (Some s) (copiedOptions o) -> lacks c s = true) ->
  In v (copiedOptions o) -> lacks c d = true -> lacks c (orStr v d) = true.
Proof.
  intros H Hin Hd. apply lacks_orStr; [|assumption].
  intros s ->. now apply H.
Qed.

Lemma occurrences_text_node (a b c d e f g h i j k : string) :
  lacks "<" a = true -> lacks "<" b = true -> lacks "<" c = true ->
  lacks "<" d = true -> lacks "<" e = true -> lacks "<" f = true ->
  lacks "<" g = true -> lacks "<" h = true -> lacks "<" i = true ->
  lacks "<" j = true -> lacks "<" k = true ->
  forall t,
    textOpts.fontColor t = a -> textOpts.fontFamily t = b ->
    textOpts.textAlign t = c -> textOpts.dominantBaseline t = d ->
    textOpts.strokeColor t = e -> textOpts.xPosition t = f ->
    textOpts.yPosition t = g -> textOpts.text t = h ->
    forall otherToString m,
      intToString (metadata.width m) = i -> intToString (metadata.height m) = j ->
      numberToString otherToString (textOpts.fontSize t) = k ->
      forall l, numberToString otherToString (textOpts.strokeWidth t) = l ->
      lacks "<" l = true ->
      occurrences "<text" (svgText otherToString m t) = 1%nat.
Proof.
  intros Ha Hb Hc Hd He Hf Hg Hh Hi Hj Hk t E1 E2 E3 E4 E5 E6 E7 E8
    otherToString m E9 E10 E11 l E12 Hl.
  unfold svgText. rewrite E1, E2, E3, E4, E5, E6, E7, E8, E9, E10, E11, E12.
  unfold NL, DQ.
  repeat (simpl; rewrite occurrences_skip by assumption).
  reflexivity.
Qed.

(** C8 (as amended).  The markup opens with an [svg] element whose width
    and height are the image's, holds a text element at the resolved
    position with the escaped text, and carries the resolved fill, font
    size, font family, anchor, baseline, stroke and stroke width, the
    paint order and the round caps and joins.  It has exactly one text
    element when no option value copied into it contains a less-than
    sign. *)
Theorem svgText_shape (otherToString : Q -> string) (m : metadata.t)
    (textValue : option string) (o : options.t) :
  let t := resolvedTextOpts m textValue o in
  let svg := svgText otherToString m t in
  let number := numberToString otherToString in
  (exists rest,
     svg = NL ++ "          <svg width=" ++ DQ ++ intToString (metadata.width m) ++ DQ
           ++ " height=" ++ DQ ++ intToString (metadata.height m) ++ DQ ++ ">" ++ rest)
  /\ contains svg
       ("<text x=" ++ DQ ++ textOpts.xPosition t ++ DQ ++ " y=" ++ DQ
        ++ textOpts.yPosition t ++ DQ ++ " class=" ++ DQ ++ "title" ++ DQ ++ ">"
        ++ textOpts.text t ++ "</text>")
  /\ contains svg ("fill: " ++ DQ ++ textOpts.fontColor t ++ DQ ++ ";")
  /\ contains svg ("font-size: " ++ number (textOpts.fontSize t) ++ "px;")
  /\ contains svg ("font-family: " ++ DQ ++ textOpts.fontFamily t ++ DQ ++ ";")
  /\ contains svg ("text-anchor: " ++ DQ ++ textOpts.textAlign t ++ DQ ++ ";")
  /\ contains svg
       ("dominant-baseline: " ++ DQ ++ textOpts.dominantBaseline t ++ DQ ++ ";")
  /\ contains svg "paint-order: stroke;"
  /\ contains svg ("stroke: " ++ DQ ++ textOpts.strokeColor t ++ DQ ++ ";")
  /\ contains svg ("stroke-width: " ++ number (textOpts.strokeWidth t) ++ "px;")
  /\ contains svg "stroke-linecap: round;"
  /\ contains svg "stroke-linejoin: round;"
  /\ ((forall s, In (Some s) (copiedOptions o) -> lacks "<" s = true) ->
      (forall q, lacks "<" (otherToString q) = true) ->
      occurrences "<text" svg = 1%nat).
Proof.
  intros t svg number. subst svg number.
  split; [eexists; reflexivity|].
  assert (Hone :
    (forall s, In (Some s) (copiedOptions o) -> lacks "<" s = true) ->
    (forall q, lacks "<" (otherToString q) = true) ->
    occurrences "<text" (svgText otherToString m t) = 1%nat).
  { intros Ho Hn.
    assert (Hin : forall v d,
      In v (copiedOptions o) -> lacks "<" d = true -> lacks "<" (orStr v d) = true)
      by (intros v d; now apply copied_lack_orStr).
    eapply (occurrences_text_node _ _ _ _ _ _ _ _ _ _ _);
      [ .. | reflexivity | reflexivity | reflexivity | reflexivity | reflexivity
      | reflexivity | reflexivity | reflexivity | reflexivity | reflexivity
      | reflexivity | reflexivity | ];
      try (apply Hin; [simpl; tauto | reflexivity]);
      try (apply replaceAll_lacks; simpl; tauto);
      try (apply intToString_lacks; simpl; tauto);
      try (apply numberToString_lacks; [simpl; tauto | assumption]). }
  clearbody t.
  repeat (split; [unfold svgText, NL, DQ; locate|]).
  exact Hone.
Qed.

(** ** The route *)

Section Route.

Variable sharp_metadata : Buffer -> Result metadata.t.
Variable sharp_toBuffer : Buffer -> string -> Encoder -> Result Buffer.
Variable otherToString : Q -> string.

Let addText := addTextToImage sharp_metadata sharp_toBuffer otherToString.
Let route := post_add_text sharp_metadata sharp_toBuffer otherToString.

(** What [addTextToImage] does, by the outcome of the two library
    calls. *)
Lemma addTextToImage_run imageBuffer textValue o :
  addText imageBuffer textValue o =
  match sharp_metadata imageBuffer with
  | Throw e =>
      ([SharpMetadata imageBuffer; ConsoleError ("Error in addTextToImage: " ++ e)],
       Throw ("Failed to add text overlay: " ++ e))
  | Ok m =>
      let t := resolvedTextOpts m textValue o in
      let svg := svgText otherToString m t in
      let enc := encoderFor (textOpts.outputFormat t) in
      let before :=
        (SharpMetadata imageBuffer :: formatWarning (initialTextOpts m textValue o)
         ++ [SharpToBuffer imageBuffer svg enc])%list in
      match sharp_toBuffer imageBuffer svg enc with
      | Ok b =>
          (before, Ok {| output.buffer := b; output.format := textOpts.outputFormat t |})
      | Throw e =>
          ((before ++ [ConsoleError ("Error in addTextToImage: " ++ e)])%list,
           Throw ("Failed to add text overlay: " ++ e))
      end
  end.
Proof.
  unfold addText, addTextToImage, image_metadata, image_toBuffer, formatWarning.
  unfold tryCatch, bind, emit, ret, throw.
  destruct (sharp_metadata imageBuffer) as [m|e]; [|reflexivity].
  destruct (negb (includes validFormats
                    (textOpts.outputFormat (initialTextOpts m textValue o))));
    destruct (sharp_toBuffer imageBuffer _ _); reflexivity.
Qed.

(** What the route does, by the presence of the file and of the text
    field. *)
Lemma route_run r :
  route r =
  match req.file r with
  | None => ([], Ok noFileResponse)
  | Some f =>
      match body.text (req.body r) with
      | None => ([], Ok noTextResponse)
      | Some _ =>
          match addText (file.buffer f) (body.text (req.body r))
                  (gatherOptions (req.body r)) with
          | (l, Ok out) =>
              (l, Ok {| res.status := 200;
                        res.contentType := "image/" ++ output.format out;
                        res.payload := Bytes (output.buffer out) |})
          | (l, Throw e) =>
              ((l ++ [ConsoleError ("Route /api/image/add-text error: " ++ e)])%list,
               Ok (jsonError 500
                     (orStr (Some e) "An error occurred while processing the image.")))
          end
      end
  end.
Proof.
  unfold route, post_add_text, addText.
  destruct (req.file r) as [f|]; [|reflexivity].
  destruct (body.text (req.body r)) as [[|c s]|]; [| |reflexivity];
    cbn [truthy notEmptyString negb andb];
    unfold tryCatch, bind, emit, ret;
    destruct (addTextToImage _ _ _ _ _ _) as [l [out|e]];
    rewrite ?app_nil_r; reflexivity.
Qed.

(** A request that reaches the image library is answered with status
    200 or 500. *)
Lemma route_processing_status r f text :
  req.file r = Some f -> body.text (req.body r) = Some text ->
  exists response,
    snd (route r) = Ok response
    /\ (res.status response = 200%Z \/ res.status response = 500%Z).
Proof.
  intros Hf Ht. rewrite route_run, Hf, Ht.
  destruct (addText _ _ _) as [l [out|e]]; eexists; split;
    try reflexivity; simpl; tauto.
Qed.

(** C7 (as amended).  The route answers 400 with the missing-file body
    exactly when no file was uploaded, and 400 with the missing-text
    body exactly when a file was uploaded and the text field is absent;
    an empty text field is not rejected.  In both cases nothing is
    logged and the image library is not called. *)
Theorem route_rejections (r : req.t) :
  (snd (route r) = Ok noFileResponse <-> req.file r = None)
  /\ (snd (route r) = Ok noTextResponse
      <-> req.file r <> None /\ body.text (req.body r) = None)
  /\ (forall response, snd (route r) = Ok response ->
      body.text (req.body r) = Some EmptyString ->
      req.file r <> None -> res.status response <> 400%Z)
  /\ (req.file r = None \/ body.text (req.body r) = None -> fst (route r) = [])
  /\ (existsb isImageProcessing (fst (route r)) = true
      <-> req.file r <> None /\ body.text (req.body r) <> None)
  /\ noFileResponse
     = {| res.status := 400;
          res.contentType := "application/json; charset=utf-8";
          res.payload :=
            JsonText ("{" ++ DQ ++ "error" ++ DQ ++ ":" ++ DQ
                      ++ "No image file uploaded." ++ DQ ++ "}") |}
  /\ noTextResponse
     = {| res.status := 400;
          res.contentType := "application/json; charset=utf-8";
          res.payload :=
            JsonText ("{" ++ DQ ++ "error" ++ DQ ++ ":" ++ DQ
                      ++ "No text parameter provided for overlay." ++ DQ ++ "}") |}.
Proof.
  assert (Hdiff : noFileResponse <> noTextResponse)
    by (intros H; vm_compute in H; discriminate H).
  assert (Hprocessing : forall f text response,
            req.file r = Some f -> body.text (req.body r) = Some text ->
            snd (route r) = Ok response -> res.status response <> 400%Z).
  { intros f text response Hf Ht E.
    destruct (route_processing_status r f text Hf Ht) as (response' & E' & Hs).
    rewrite E in E'. injection E' as <-. destruct Hs; congruence. }
  split; [|split; [|split; [|split; [|split; [|split]]]]].
  - split.
    + intros H. destruct (req.file r) as [f|] eqn:Hf; [exfalso | reflexivity].
      destruct (body.text (req.body r)) as [text|] eqn:Ht.
      * now apply (Hprocessing f text noFileResponse eq_refl eq_refl H).
      * rewrite route_run, Hf, Ht in H. cbn [snd] in H. congruence.
    + intros H. now rewrite route_run, H.
  - split.
    + intros H. destruct (req.file r) as [f|] eqn:Hf.
      * destruct (body.text (req.body r)) as [text|] eqn:Ht;
          [exfalso | split; [discriminate | reflexivity]].
        now apply (Hprocessing f text noTextResponse eq_refl eq_refl H).
      * exfalso. rewrite route_run, Hf in H. cbn [snd] in H. congruence.
    + intros (Hf & Ht). rewrite route_run, Ht.
      destruct (req.file r); [reflexivity | contradiction].
  - intros response E Ht Hf.
    destruct (req.file r) as [f|] eqn:Ef; [|contradiction].
    now apply (Hprocessing f EmptyString response eq_refl Ht E).
  - intros [Hf|Ht]; rewrite route_run.
    + now rewrite Hf.
    + rewrite Ht. now destruct (req.file r).
  - rewrite route_run.
    destruct (req.file r) as [f|]; [|split; [discriminate | now intros (H & _)]].
    destruct (body.text (req.body r)) as [text|];
      [|split; [discriminate | now intros (_ & H)]].
    split; [intros _; split; discriminate | intros _].
    rewrite addTextToImage_run.
    destruct (sharp_metadata (file.buffer f)) as [m|e]; [|reflexivity].
    cbv zeta. destruct (sharp_toBuffer _ _ _); reflexivity.
  - reflexivity.
  - reflexivity.
Qed.


(** C6 (as amended).  For a 400 by 300 PNG image with the text
    [Hi <there>] and no other field, the markup contains the escaped
    text, the resolved format is [png] and the resolved font size is 25
    (300 / 12), printed as [25px]; when the image library succeeds the
    response has status 200 and content type [image/png]. *)
Theorem scenario_400x300 (imageBuffer out : Buffer) (mimetype : string) :
  let t :=
    resolvedTextOpts scenarioMetadata (body.text scenarioBody)
      (gatherOptions scenarioBody) in
  let svg := svgText otherToString scenarioMetadata t in
  sharp_metadata imageBuffer = Ok scenarioMetadata ->
  sharp_toBuffer imageBuffer svg (png 6) = Ok out ->
  contains svg "Hi &lt;there&gt;"
  /\ textOpts.outputFormat t = "png"
  /\ textOpts.fontSize t == 25
  /\ contains svg "font-size: 25px;"
  /\ route (req.mk (Some (file.mk imageBuffer mimetype)) scenarioBody)
     = ([SharpMetadata imageBuffer; SharpToBuffer imageBuffer svg (png 6)],
        Ok {| res.status := 200;
              res.contentType := "image/png";
              res.payload := Bytes out |}).
Proof.
  intros t svg Hmetadata HtoBuffer.
  split; [|split; [|split; [|split]]].
  - apply (contains_inner svg ">" _ "</text>").
    exact (svgText_text_node otherToString scenarioMetadata t).
  - reflexivity.
  - vm_compute. reflexivity.
  - exact (svgText_font_size otherToString scenarioMetadata t).
  - rewrite route_run. cbn [req.file req.body file.buffer].
    change (body.text scenarioBody) with (Some "Hi <there>").
    rewrite addTextToImage_run, Hmetadata. cbv zeta.
    repeat match goal with
    | |- context [sharp_toBuffer ?b ?s ?e] =>
        progress change (sharp_toBuffer b s e)
          with (sharp_toBuffer imageBuffer svg (png 6))
    end.
    rewrite HtoBuffer. reflexivity.
Qed.

End Route.

Lemma fontSize_default_witness :
  options.fontSize noOptions = None
  /\ textOpts.fontSize (resolvedTextOpts scenarioMetadata (Some "Hi") noOptions)
     = Qmax 20 (inject_Z (Z.min 400 300) / 12).
Proof.
  split; [reflexivity|].
  apply (fontSize_default scenarioMetadata (Some "Hi") noOptions). reflexivity.
Defined.

Lemma strokeWidth_default_witness :
  options.strokeWidth noOptions = None
  /\ textOpts.strokeWidth (resolvedTextOpts scenarioMetadata (Some "Hi") noOptions)
     = Qmax 1 (textOpts.fontSize
                 (resolvedTextOpts scenarioMetadata (Some "Hi") noOptions) / 20).
Proof.
  split; [reflexivity|].
  apply (strokeWidth_default scenarioMetadata (Some "Hi") noOptions). reflexivity.
Defined.

Lemma scenario_400x300_witness :
  stubMetadata [] = Ok scenarioMetadata
  /\ post_add_text stubMetadata stubToBuffer stubOtherToString
       (req.mk (Some (file.mk [] "image/png")) scenarioBody)
     = ([SharpMetadata [];
         SharpToBuffer []
           (svgText stubOtherToString scenarioMetadata
              (resolvedTextOpts scenarioMetadata (body.text scenarioBody)
                 (gatherOptions scenarioBody)))
           (png 6)],
        Ok {| res.status := 200;
              res.contentType := "image/png";
              res.payload := Bytes [] |}).
Proof.
  split; [reflexivity|].
  apply (scenario_400x300 stubMetadata stubToBuffer stubOtherToString [] []
           "image/png" eq_refl eq_refl).
Defined.

(** C6 as stated fails: the scenario's font size is 25, not 33. *)
Lemma scenario_400x300_counterexample : ~ scenarioFontSize_as_stated.
Proof. intros H. vm_compute in H. discriminate H. Qed.

Lemma route_rejections_witness :
  req.file (req.mk (Some (file.mk [] "image/png")) (bodyWithText None)) <> None
  /\ snd (post_add_text stubMetadata stubToBuffer stubOtherToString
            (req.mk (Some (file.mk [] "image/png")) (bodyWithText None)))
     = Ok noTextResponse.
Proof.
  assert (H : req.file (req.mk (Some (file.mk [] "image/png")) (bodyWithText None))
              <> None) by discriminate.
  split; [exact H|].
  apply (proj2 (proj1 (proj2 (route_rejections stubMetadata stubToBuffer
                                stubOtherToString
                                (req.mk (Some (file.mk [] "image/png"))
                                   (bodyWithText None)))))).
  split; [exact H | reflexivity].
Defined.

(** C7 as stated fails: a request with neither a file nor a text field
    has its text field absent, yet it is answered with the missing-file
    body, not the missing-text body. *)
Lemma route_rejections_counterexample :
  ~ textRejection_as_stated stubMetadata stubToBuffer stubOtherToString
      (req.mk None (bodyWithText None)).
Proof.
  intros [_ H]. specialize (H eq_refl). vm_compute in H. discriminate H.
Qed.

Lemma svgText_shape_witness :
  (forall s,
     In (Some s)
       (copiedOptions
          (options.mk (Some "Arial") (Some "40") None None None (Some "10%") None
             None None None)) ->
     lacks "<" s = true)
  /\ occurrences "<text"
       (svgText stubOtherToString scenarioMetadata
          (resolvedTextOpts scenarioMetadata (Some "Hi")
             (options.mk (Some "Arial") (Some "40") None None None (Some "10%") None
                None None None)))
     = 1%nat.
Proof.
  assert (H : forall s,
    In (Some s)
      (copiedOptions
         (options.mk (Some "Arial") (Some "40") None None None (Some "10%") None
            None None None)) ->
    lacks "<" s = true).
  { intros s Hs. simpl in Hs.
    repeat (destruct Hs as [Hs|Hs]; try discriminate Hs;
            try (injection Hs as <-; reflexivity)).
    contradiction. }
  split; [exact H|].
  apply (svgText_shape stubOtherToString scenarioMetadata (Some "Hi")
           (options.mk (Some "Arial") (Some "40") None None None (Some "10%") None
              None None None)).
  - exact H.
  - reflexivity.
Defined.

(** C8 as stated fails: with an [xPosition] that closes the text element
    and opens another, the markup has two text elements. *)
Lemma svgText_shape_counterexample :
  ~ oneTextNode_as_stated stubOtherToString scenarioMetadata (Some "Hi")
      (options.mk None None None None None (Some injectedPosition) None None None
         None).
Proof. intros H. vm_compute in H. discriminate H. Qed.


End ServerProofs.

(** * Properties of image-processing/node/image-processing.js *)

Module ImageProcessingProofs.
Import JS ImageProcessing ScriptSpec Script ScriptExtraSpec.

Section World.

Variable FS : Type.
Variable fs_existsSync : FS -> string -> bool.
Variable fs_readFile : FS -> string -> Result Buffer.
Variable fs_writeFile : FS -> string -> Buffer -> FS * Result unit.
Variable fs_mkdirSync : FS -> string -> FS * Result unit.
Variable axios_get : string -> Result Buffer.
Variable path_join : string -> string -> string.
Variable env : string -> option string.

Local Abbreviation download := (downloadOceanAsset FS fs_writeFile axios_get).
Local Abbreviation getImage :=
  (getImageBuffer FS fs_existsSync fs_readFile fs_writeFile fs_mkdirSync
     axios_get path_join env).

(** When resolution fails the download returns [null] and leaves the file
    system alone; its one external call is the resolution. *)
Lemma downloadOceanAsset_resolution_fails oc did downloadPath fs :
  resolutionFails oc did = true ->
  value (download (Some oc) did downloadPath fs) = Ok None
  /\ finalState (download (Some oc) did downloadPath fs) = fs
  /\ externalCalls (events (download (Some oc) did downloadPath fs))
     = [AssetsResolve did].
Proof.
  unfold resolutionFails, downloadOceanAsset.
  unfold tryCatch, bind, emit, call, ret, value, events, finalState.
  destruct (ocean.assets_resolve oc did) as [[d|]|e]; [discriminate| |];
    intros _; repeat split.
Qed.

(** A URL the download fetches is the one the provider names for the
    asset. *)
Lemma downloadOceanAsset_fetches oc did downloadPath fs url :
  In (AxiosGet url) (events (download (Some oc) did downloadPath fs)) ->
  namedByProvider oc did url.
Proof.
  unfold downloadOceanAsset, namedByProvider, chosenService.
  unfold tryCatch, bind, emit, call, ret, writeFile, events.
  destruct (ocean.assets_resolve oc did) as [[d|]|e] eqn:Eresolve.
  2,3: cbn; intros H; repeat (destruct H as [H|H]; [discriminate H|]); contradiction.
  destruct (find _ (ddo.services d)) as [sv|] eqn:Efind;
    [|destruct (ddo.services d) as [|sv others] eqn:Eservices];
    cbn;
    try (destruct (ocean.provider oc) as [pr|] eqn:Eprov; cbn);
    try (destruct (provider.getEncryptedFiles pr _ _ _) as [[[|fo rest]|]|e] eqn:Efiles;
         cbn);
    try (destruct (fileObject.url fo) as [[|c u]|] eqn:Eurl; cbn [truthy ToString]);
    try (destruct (axios_get (String c u)) as [data|e] eqn:Eget);
    try (destruct (fs_writeFile fs downloadPath data) as [fs' [[]|e]] eqn:Ewrite);
    cbn; intros H;
    repeat (destruct H as [H|H]; [try discriminate H|]); try contradiction.
  all: injection H as <-; exists d, sv, pr, fo, rest;
    rewrite ?Eservices, ?Efind; cbn; auto 6.
Qed.

(** [getImageBuffer] never throws: its [catch] block returns [null]. *)
Lemma getImageBuffer_returns oceanInstance fs :
  exists result, value (getImage oceanInstance fs) = Ok result.
Proof.
  unfold getImageBuffer.
  match goal with
  | |- context [tryCatch _ ?m ?h] => generalize m; intros body
  end.
  unfold tryCatch, bind, emit, ret, value.
  destruct (body fs) as [[l fs1] [a|e]]; eexists; reflexivity.
Qed.

Ltac not_fetched H :=
  repeat match type of H with
  | In _ (_ ++ _) => apply in_app_or in H; destruct H as [H|H]
  | In _ (_ :: _) => destruct H as [H|H]; [discriminate H|]
  | In _ [] => contradiction
  end.

Ltac run_script :=
  unfold getImageBuffer, tryCatch, bind, emit, call, ret, existsSync, readFile,
    mkdirSync, value, events, finalState, externalCalls, orNull, orElse.

(** C10.  The script takes its image from the source chosen by priority
    and from no other.  With a local path configured it reads that file,
    and returns [null] without any other access when the path does not
    exist.  Otherwise, with an asset identifier configured, it returns
    [null] without any access when there is no SDK instance.  With an
    instance, the only URL it can fetch is the one the provider names for
    the asset; its external calls are the creation of the download
    directory when it is missing, those of [downloadOceanAsset] and, when
    that returns the path, the reading of the downloaded file; when
    resolution fails the resolution is the last call and the result is
    [null].  Otherwise it fetches the configured URL, and the default URL
    when none is configured. *)
Theorem getImageBuffer_source_priority (oceanInstance : option ocean.t) (fs : FS) :
  let run := getImage oceanInstance fs in
  (exists result, value run = Ok result)
  /\ match selectedSource env with
     | LocalFile p =>
         finalState run = fs
         /\ (if fs_existsSync fs p
             then value run = Ok (orNull (fs_readFile fs p))
                  /\ externalCalls (events run) = [FsReadFile p]
             else value run = Ok None /\ externalCalls (events run) = [])
     | MarketplaceAsset d =>
         match oceanInstance with
         | None =>
             value run = Ok None /\ externalCalls (events run) = []
             /\ finalState run = fs
         | Some oc =>
             let dir :=
               path_join
                 (orStr (orElse (env "OUTPUT_DIR") (env "RESULTS_DIR")) "/data/outputs")
                 "temp_downloads" in
             let path := path_join dir (replaceNonAlphaNumeric d ++ ".tmp") in
             let made := if fs_existsSync fs dir then [] else [FsMkdir dir] in
             let ready :=
               if fs_existsSync fs dir then (fs, Ok tt) else fs_mkdirSync fs dir in
             (forall url, In (AxiosGet url) (events run) -> namedByProvider oc d url)
             /\
             match snd ready with
             | Throw _ =>
                 value run = Ok None /\ externalCalls (events run) = made
                 /\ finalState run = fst ready
             | Ok _ =>
                 let dl := download (Some oc) d path (fst ready) in
                 finalState run = finalState dl
                 /\ (resolutionFails oc d = true ->
                     value run = Ok None
                     /\ externalCalls (events run) = (made ++ [AssetsResolve d])%list)
                 /\ match value dl with
                    | Ok (Some (String c p)) =>
                        value run = Ok (orNull (fs_readFile (finalState dl) (String c p)))
                        /\ externalCalls (events run)
                           = (made ++ externalCalls (events dl)
                                   ++ [FsReadFile (String c p)])%list
                    | _ =>
                        value run = Ok None
                        /\ externalCalls (events run)
                           = (made ++ externalCalls (events dl))%list
                    end
             end
         end
     | RemoteUrl u =>
         value run = Ok (orNull (axios_get u))
         /\ externalCalls (events run) = [AxiosGet u]
         /\ finalState run = fs
     | DefaultUrl =>
         value run = Ok (orNull (axios_get defaultImageUrl))
         /\ externalCalls (events run) = [AxiosGet defaultImageUrl]
         /\ finalState run = fs
     end.
Proof.
  split; [apply getImageBuffer_returns|].
  unfold selectedSource.
  destruct (env "INPUT_FILE_PATH_0") as [[|c p]|] eqn:Efile.
  2:{ unfold getImageBuffer. rewrite Efile. cbn [truthy ToString]. run_script.
      destruct (fs_existsSync fs (String c p));
        [destruct (fs_readFile fs (String c p))|]; repeat split. }
  all: destruct (env "INPUT_DID_0") as [[|c d]|] eqn:Edid.
  2,5: destruct oceanInstance as [oc|];
    [|unfold getImageBuffer; rewrite Efile, Edid; cbn [truthy ToString]; run_script;
      repeat split].
  2,3: cbv zeta; unfold getImageBuffer; rewrite Efile, Edid; cbn [truthy ToString];
    unfold tryCatch, bind, emit, ret, existsSync, readFile, mkdirSync, value, events,
      finalState;
    set (dir := path_join _ "temp_downloads"); set (path := path_join dir _);
    destruct (fs_existsSync fs dir); cbn [negb fst snd];
    [|destruct (fs_mkdirSync fs dir) as [fs1 [[]|e]]; cbn [fst snd];
      [|split; [intros url H; not_fetched H | repeat split]]];
    match goal with
    | |- context [download (Some ?o) ?did ?pth ?fs0] =>
        pose proof (downloadOceanAsset_resolution_fails o did pth fs0) as Hres;
        pose proof (fun url => downloadOceanAsset_fetches o did pth fs0 url) as Hfetch;
        unfold value, events, finalState in Hres, Hfetch;
        destruct (download (Some o) did pth fs0) as [[l fs2] [[[|c0 p]|]|e]]
    end;
    cbn [fst snd truthy ToString] in *;
    try (destruct (fs_readFile fs2 (String c0 p)); cbn [fst snd orNull]);
    (split; [intros url H; not_fetched H; now apply Hfetch|]);
    unfold externalCalls in *; rewrite ?filter_app; cbn [filter isExternal app];
    rewrite ?app_nil_r;
    (split; [reflexivity|]); (split; [|split; reflexivity]);
    intros Hfails; destruct (Hres Hfails) as (Hvalue & _ & Hcalls);
    try discriminate Hvalue; rewrite Hcalls; split; reflexivity.
  all: destruct (env "INPUT_IMAGE_URL") as [[|c u]|] eqn:Eurl.
  all: try (destruct (env "IMAGE_URL") as [[|c' u']|] eqn:Eurl').
  all: unfold getImageBuffer, orElse; rewrite ?Efile, ?Edid, ?Eurl, ?Eurl';
    cbn [truthy ToString]; rewrite ?Eurl'; cbn [truthy ToString]; run_script;
    destruct (axios_get _); repeat split.
Qed.

End World.

Lemma getImageBuffer_source_priority_witness :
  resolutionFails emptyOcean "did:op:1234" = true
  /\ value (getImageBuffer unit nothingExists readsEmpty writes makesDir answersOneByte
              joinWithSlash envAssetOnly (Some emptyOcean) tt) = Ok None
  /\ externalCalls
       (events (getImageBuffer unit nothingExists readsEmpty writes makesDir
                  answersOneByte joinWithSlash envAssetOnly (Some emptyOcean) tt))
     = [FsMkdir "/data/outputs/temp_downloads"; AssetsResolve "did:op:1234"].
Proof.
  split; [reflexivity|].
  pose proof (getImageBuffer_source_priority unit nothingExists readsEmpty writes makesDir
                answersOneByte joinWithSlash envAssetOnly (Some emptyOcean) tt) as [_ H].
  cbn in H. destruct H as (_ & _ & H & _). exact (H eq_refl).
Defined.

(** With a local path configured that does not exist, and a URL configured
    that would answer, the script logs the path and the error and returns
    [null]. *)
Example getImageBuffer_missing_file :
  getImageBuffer unit (fun _ _ => false) (fun _ _ => Throw "ENOENT")
    (fun fs _ _ => (fs, Ok tt)) (fun fs _ => (fs, Ok tt)) (fun _ => Ok [])
    (fun a b => a ++ "/" ++ b) envFileAndUrl None tt
  = ([LoggerLog "Reading image from local file path: /data/inputs/0/image.png";
      LoggerError "Error: Input file path does not exist: /data/inputs/0/image.png"],
     tt, Ok None).
Proof. reflexivity. Qed.

End ImageProcessingProofs.

(** * Further properties of node/server.js *)

Module ServerExtras.
Import JS Server Spec ExtraSpec ServerProofs Upload.

(** ** xmlEscape *)

(** X1.  Escaping a concatenation is concatenating the escapes. *)
Theorem xmlEscape_app (a b : string) :
  xmlEscape (Some (a ++ b)) = xmlEscape (Some a) ++ xmlEscape (Some b).
Proof.
  simpl. induction a as [|c a IH]; [reflexivity|].
  cbn [append replaceAll]. now rewrite IH, append_assoc.
Qed.

Lemma replaceAll_length s :
  (String.length s <= String.length (replaceAll s) <= 6 * String.length s)%nat.
Proof.
  assert (Hlen : forall x y, String.length (x ++ y) = (String.length x + String.length y)%nat)
    by (intros x y; induction x as [|d x IH]; simpl; [reflexivity | now rewrite IH]).
  induction s as [|c s IH]; [simpl; lia|].
  cbn [replaceAll]. rewrite Hlen.
  assert (1 <= String.length (if matchesClass c then replacement c else String c EmptyString) <= 6)%nat
    by (by_character c; simpl; lia).
  cbn [String.length]. lia.
Qed.

Lemma replaceAll_same_length s :
  String.length (replaceAll s) = String.length s ->
  forall c, In c specialCharacters -> lacks c s = true.
Proof.
  assert (Hlen : forall x y, String.length (x ++ y) = (String.length x + String.length y)%nat)
    by (intros x y; induction x as [|d x IH]; simpl; [reflexivity | now rewrite IH]).
  induction s as [|d s IH]; [reflexivity|].
  cbn [replaceAll]. rewrite Hlen. cbn [String.length]. intros H c Hc.
  pose proof (replaceAll_length s) as Hs.
  assert (Hd : matchesClass d = false).
  { destruct (matchesClass d) eqn:E; [exfalso | reflexivity].
    revert H E. by_character d; simpl; intros; try lia; discriminate. }
  rewrite Hd in H. cbn [String.length] in H.
  cbn [lacks]. rewrite IH by (assumption || lia). rewrite andb_true_r.
  apply negb_true_iff. destruct (Ascii.eqb_spec d c) as [->|]; [|reflexivity].
  exfalso. simpl in Hc.
  destruct Hc as [<-|[<-|[<-|[<-|[<-|[]]]]]]; discriminate Hd.
Qed.

Lemma replaceAll_plain s :
  (forall c, In c specialCharacters -> lacks c s = true) -> replaceAll s = s.
Proof.
  induction s as [|d s IH]; [reflexivity|].
  intros H. cbn [replaceAll].
  assert (Hd : matchesClass d = false).
  { unfold matchesClass. rewrite !orb_false_iff.
    repeat split; apply negb_true_iff;
      match goal with
      | |- negb (Ascii.eqb d ?c) = true =>
          assert (Hc : lacks c (String d s) = true) by (apply H; simpl; tauto);
          cbn [lacks] in Hc; now apply andb_true_iff in Hc
      end. }
  rewrite Hd. cbn [append]. f_equal. apply IH.
  intros c Hc. specialize (H c Hc). cbn [lacks] in H.
  now apply andb_true_iff in H.
Qed.

(** X2.  [xmlEscape] returns its argument unchanged exactly when the
    argument has none of the five special characters. *)
Theorem xmlEscape_unchanged_iff (s : string) :
  xmlEscape (Some s) = s <-> (forall c, In c specialCharacters -> lacks c s = true).
Proof.
  split.
  - intros H. apply replaceAll_same_length. simpl in H. now rewrite H.
  - apply replaceAll_plain.
Qed.

(** X3.  [xmlEscape] loses nothing: two texts with the same escape are the
    same text. *)
Theorem xmlEscape_injective (a b : string) :
  xmlEscape (Some a) = xmlEscape (Some b) -> a = b.
Proof.
  simpl. intros H.
  rewrite <- (unescape_replaceAll a), <- (unescape_replaceAll b). now rewrite H.
Qed.

Lemma xmlEscape_injective_witness :
  xmlEscape (Some "a<b") = xmlEscape (Some ("a" ++ "<b")) /\ "a<b" = "a" ++ "<b".
Proof.
  split; [reflexivity|].
  apply (xmlEscape_injective "a<b" ("a" ++ "<b")). reflexivity.
Defined.

(** X4.  The escape is at least as long as the text and at most six times
    as long. *)
Theorem xmlEscape_length (s : string) :
  (String.length s <= String.length (xmlEscape (Some s)) <= 6 * String.length s)%nat.
Proof. apply replaceAll_length. Qed.

(** ** Output format and encoder *)

(** X5.  Whatever the input, the resolved format and the encoder call made
    for it are one line of the encoder table; the generic [toFormat] call
    is made for [gif] only. *)
Theorem encoder_of_resolved_format (m : metadata.t) (textValue : option string)
    (o : options.t) :
  let f := textOpts.outputFormat (resolvedTextOpts m textValue o) in
  In (f, encoderFor f) encoderTable.
Proof.
  intros f. pose proof (sanitizeFormat_supported
    (textOpts.outputFormat (initialTextOpts m textValue o))) as H.
  change (In f supportedFormats) in H. revert H. generalize f. clear.
  intros f H. simpl in H.
  destruct H as [<-|[<-|[<-|[<-|[<-|[<-|[]]]]]]]; simpl; tauto.
Qed.

(** X6.  Supplying the resolved format as the output format resolves to
    the same format. *)
Theorem resolved_format_is_stable (m : metadata.t) (textValue : option string)
    (o : options.t) :
  let f := textOpts.outputFormat (resolvedTextOpts m textValue o) in
  textOpts.outputFormat (resolvedTextOpts m textValue (withOutputFormat o (Some f))) = f.
Proof.
  intros f. pose proof (sanitizeFormat_supported
    (textOpts.outputFormat (initialTextOpts m textValue o))) as H.
  change (In f supportedFormats) in H.
  unfold resolvedTextOpts at 1.
  cbn [textOpts.set_outputFormat textOpts.outputFormat initialTextOpts withOutputFormat
       options.outputFormat].
  revert H. generalize f. clear. intros f H. simpl in H.
  destruct H as [<-|[<-|[<-|[<-|[<-|[<-|[]]]]]]]; reflexivity.
Qed.

(** ** Defaults *)

Lemma orStr_absentIfEmpty v d : orStr (absentIfEmpty v) d = orStr v d.
Proof. now destruct v as [[|c s]|]. Qed.

Lemma parseInt_absentIfEmpty v : parseInt (absentIfEmpty v) = parseInt v.
Proof. now destruct v as [[|c s]|]. Qed.

Lemma orElse_absentIfEmpty v w : orElse (absentIfEmpty v) w = orElse v w.
Proof. now destruct v as [[|c s]|]. Qed.

Lemma initialTextOpts_optionsWithoutEmpty (m : metadata.t)
    (textValue : option string) (o : options.t) :
  initialTextOpts m textValue (optionsWithoutEmpty o) = initialTextOpts m textValue o.
Proof.
  unfold initialTextOpts, currentFontSize, resolvedStrokeWidth, currentFontSize,
    optionsWithoutEmpty.
  cbn [options.fontFamily options.fontSize options.fontColor options.strokeColor
       options.strokeWidth options.xPosition options.yPosition options.textAlign
       options.dominantBaseline options.outputFormat].
  now rewrite !orStr_absentIfEmpty, !parseInt_absentIfEmpty, !orElse_absentIfEmpty.
Qed.

(** X8.  With neither [fontSize] nor [strokeWidth] supplied, the stroke
    width is the font size divided by 20 and is at least 1: the lower
    bound of the default never takes effect. *)
Theorem default_strokeWidth_follows_fontSize (m : metadata.t)
    (textValue : option string) (o : options.t) :
  options.fontSize o = None -> options.strokeWidth o = None ->
  let t := resolvedTextOpts m textValue o in
  textOpts.strokeWidth t == textOpts.fontSize t / 20 /\ 1 <= textOpts.strokeWidth t.
Proof.
  intros Hf Hs t. subst t. unfold resolvedTextOpts.
  cbn [textOpts.set_outputFormat textOpts.strokeWidth textOpts.fontSize initialTextOpts].
  unfold resolvedStrokeWidth, currentFontSize. rewrite Hf, Hs. cbn [parseInt ToString].
  change (parseInt None) with (@None Z). cbv iota.
  unfold Math_max. split; [|apply Q.le_max_l].
  apply Q.max_r. apply Qle_shift_div_l; [reflexivity|].
  apply defaultFontSize_lower_bound.
Qed.

Lemma default_strokeWidth_follows_fontSize_witness :
  let t := resolvedTextOpts scenarioMetadata (Some "Hi") noOptions in
  textOpts.strokeWidth t == textOpts.fontSize t / 20 /\ 1 <= textOpts.strokeWidth t.
Proof.
  apply (default_strokeWidth_follows_fontSize scenarioMetadata (Some "Hi") noOptions);
    reflexivity.
Defined.

(** ** The route and the upload filter *)

Section Route.

Variable sharp_metadata : Buffer -> Result metadata.t.
Variable sharp_toBuffer : Buffer -> string -> Encoder -> Result Buffer.
Variable otherToString : Q -> string.

Let addText := addTextToImage sharp_metadata sharp_toBuffer otherToString.
Let route := post_add_text sharp_metadata sharp_toBuffer otherToString.

(** X9.  When the metadata can be read, [addTextToImage] warns about the
    output format exactly when the lower-cased candidate (the supplied
    format, else the detected one, else [png]) is not a valid format, and
    the warning names that candidate. *)
Theorem warning_iff_invalid_format imageBuffer textValue o m :
  sharp_metadata imageBuffer = Ok m ->
  (existsb isConsoleWarn (fst (addText imageBuffer textValue o)) = true
   <-> includes validFormats (candidateFormat m o) = false)
  /\ (includes validFormats (candidateFormat m o) = false ->
      In (ConsoleWarn ("Invalid output format: " ++ candidateFormat m o
                       ++ ". Defaulting to png."))
         (fst (addText imageBuffer textValue o))).
Proof.
  intros Hm. unfold addText. rewrite addTextToImage_run, Hm. cbv zeta.
  unfold formatWarning.
  change (textOpts.outputFormat (initialTextOpts m textValue o))
    with (candidateFormat m o).
  destruct (includes validFormats (candidateFormat m o));
    destruct (sharp_toBuffer _ _ _); cbn [negb fst existsb app isConsoleWarn orb];
    (split; [split; try reflexivity; discriminate | intros H; try discriminate H]);
    simpl; tauto.
Qed.

(** X10.  The route never throws: it always answers, with status 200, 400
    or 500.  It answers 200 exactly when a file and a text field are
    present and both calls of the image library succeed, and then the body
    is the encoded buffer and the content type is [image/] followed by the
    resolved format. *)
Theorem route_answers (r : req.t) :
  exists response,
    snd (route r) = Ok response
    /\ (res.status response = 200%Z \/ res.status response = 400%Z
        \/ res.status response = 500%Z)
    /\ (res.status response = 200%Z <->
        exists f text m b,
          req.file r = Some f /\ body.text (req.body r) = Some text
          /\ sharp_metadata (file.buffer f) = Ok m
          /\ sharp_toBuffer (file.buffer f)
               (svgText otherToString m
                  (resolvedTextOpts m (Some text) (gatherOptions (req.body r))))
               (encoderFor
                  (textOpts.outputFormat
                     (resolvedTextOpts m (Some text) (gatherOptions (req.body r)))))
             = Ok b
          /\ response
             = {| res.status := 200;
                  res.contentType :=
                    "image/" ++ textOpts.outputFormat
                                  (resolvedTextOpts m (Some text) (gatherOptions (req.body r)));
                  res.payload := Bytes b |}).
Proof.
  unfold route. rewrite route_run.
  destruct (req.file r) as [f|] eqn:Hf.
  2:{ eexists. split; [reflexivity|]. split; [simpl; tauto|].
      split; [discriminate|]. intros (f & text & m & b & H & _). discriminate H. }
  destruct (body.text (req.body r)) as [text|] eqn:Ht.
  2:{ eexists. split; [reflexivity|]. split; [simpl; tauto|].
      split; [discriminate|]. intros (f' & text & m & b & _ & H & _). discriminate H. }
  rewrite addTextToImage_run.
  destruct (sharp_metadata (file.buffer f)) as [m|e] eqn:Hm.
  2:{ eexists. split; [reflexivity|]. split; [simpl; tauto|].
      split; [discriminate|].
      intros (f' & text' & m & b & [= <-] & _ & H & _). congruence. }
  cbv zeta.
  destruct (sharp_toBuffer _ _ _) as [b|e] eqn:Hb.
  - eexists. split; [reflexivity|]. split; [simpl; tauto|].
    split; [intros _|reflexivity].
    exists f, text, m, b. repeat split; assumption || reflexivity.
  - eexists. split; [reflexivity|]. split; [simpl; tauto|].
    split; [discriminate|].
    intros (f' & text' & m' & b & [= <-] & [= <-] & H & H' & _).
    rewrite Hm in H. injection H as <-. congruence.
Qed.

(** X11.  When a call of the image library throws, the route answers 500
    with the library's message behind the prefix of [addTextToImage], and
    the error is logged by [addTextToImage] and by the route. *)
Theorem library_failure_is_500 (r : req.t) (f : file.t) (text e : string) :
  req.file r = Some f -> body.text (req.body r) = Some text ->
  (sharp_metadata (file.buffer f) = Throw e
   \/ exists m,
        sharp_metadata (file.buffer f) = Ok m
        /\ sharp_toBuffer (file.buffer f)
             (svgText otherToString m
                (resolvedTextOpts m (Some text) (gatherOptions (req.body r))))
             (encoderFor
                (textOpts.outputFormat
                   (resolvedTextOpts m (Some text) (gatherOptions (req.body r)))))
           = Throw e) ->
  snd (route r) = Ok (jsonError 500 ("Failed to add text overlay: " ++ e))
  /\ In (ConsoleError ("Error in addTextToImage: " ++ e)) (fst (route r))
  /\ In (ConsoleError ("Route /api/image/add-text error: Failed to add text overlay: "
                       ++ e)) (fst (route r)).
Proof.
  intros Hf Ht H. unfold route. rewrite route_run, Hf, Ht, addTextToImage_run.
  destruct H as [H|(m & Hm & H)].
  - rewrite H. cbn [fst snd app].
    split; [reflexivity|]. split; [right; left | right; right; left]; reflexivity.
  - rewrite Hm. cbv zeta. rewrite H. cbn [fst snd].
    split; [reflexivity|].
    split; apply in_or_app; [left; apply in_or_app|]; right; left; reflexivity.
Qed.

(** X12.  The content type of every 200 response is a type the upload
    filter accepts. *)
Theorem response_type_is_uploadable (r : req.t) (response : res.t) :
  snd (route r) = Ok response -> res.status response = 200%Z ->
  snd (fileFilter (res.contentType response)) = true.
Proof.
  unfold route. rewrite route_run.
  destruct (req.file r) as [f|]; [|intros [= <-]; discriminate].
  destruct (body.text (req.body r)) as [text|]; [|intros [= <-]; discriminate].
  rewrite addTextToImage_run.
  destruct (sharp_metadata (file.buffer f)) as [m|e]; [|intros [= <-]; discriminate].
  cbv zeta.
  set (fmt := textOpts.outputFormat
                (resolvedTextOpts m (Some text) (gatherOptions (req.body r)))).
  assert (Hfmt : In fmt supportedFormats) by apply sanitizeFormat_supported.
  clearbody fmt.
  destruct (sharp_toBuffer _ _ _) as [b|e]; [|intros [= <-]; discriminate].
  intros [= <-] _. cbn [res.contentType output.format]. simpl in Hfmt.
  destruct Hfmt as [<-|[<-|[<-|[<-|[<-|[<-|[]]]]]]]; reflexivity.
Qed.

(** X7.  An optional field sent as the empty string is treated exactly as
    a field that was not sent: the route logs the same and answers the
    same.  (The text field is another matter: an empty text is accepted
    and an absent one is rejected.) *)
Theorem empty_options_are_absent (r : req.t) :
  route (req.mk (req.file r) (bodyWithoutEmptyOptions (req.body r))) = route r.
Proof.
  unfold route, post_add_text. cbn [req.file req.body].
  change (body.text (bodyWithoutEmptyOptions (req.body r))) with (body.text (req.body r)).
  change (gatherOptions (bodyWithoutEmptyOptions (req.body r)))
    with (optionsWithoutEmpty (gatherOptions (req.body r))).
  destruct (req.file r) as [f|]; [|reflexivity].
  destruct (negb _ && _); [reflexivity|].
  rewrite !addTextToImage_run.
  destruct (sharp_metadata (file.buffer f)) as [m|e]; [|reflexivity].
  unfold formatWarning, resolvedTextOpts.
  now rewrite !initialTextOpts_optionsWithoutEmpty.
Qed.

End Route.

Lemma warning_iff_invalid_format_witness :
  stubMetadata [] = Ok scenarioMetadata
  /\ existsb isConsoleWarn
       (fst (addTextToImage stubMetadata stubToBuffer stubOtherToString []
               (Some "Hi") (withOutputFormat noOptions (Some "bmp")))) = true.
Proof.
  split; [reflexivity|].
  apply (proj1 (warning_iff_invalid_format stubMetadata stubToBuffer stubOtherToString
                  [] (Some "Hi") (withOutputFormat noOptions (Some "bmp"))
                  scenarioMetadata eq_refl)).
  reflexivity.
Defined.

Lemma library_failure_is_500_witness :
  snd (post_add_text (fun _ => Throw "Input buffer contains unsupported image format")
         stubToBuffer stubOtherToString
         (req.mk (Some (file.mk [] "image/png")) (bodyWithText (Some "Hi"))))
  = Ok (jsonError 500
          "Failed to add text overlay: Input buffer contains unsupported image format").
Proof.
  apply (library_failure_is_500
           (fun _ => Throw "Input buffer contains unsupported image format")
           stubToBuffer stubOtherToString
           (req.mk (Some (file.mk [] "image/png")) (bodyWithText (Some "Hi")))
           (file.mk [] "image/png") "Hi"
           "Input buffer contains unsupported image format" eq_refl eq_refl).
  left. reflexivity.
Defined.

Lemma response_type_is_uploadable_witness :
  snd (fileFilter "image/png") = true.
Proof.
  apply (response_type_is_uploadable stubMetadata stubToBuffer stubOtherToString
           (req.mk (Some (file.mk [] "image/png")) scenarioBody)
           {| res.status := 200; res.contentType := "image/png"; res.payload := Bytes [] |});
    reflexivity.
Defined.

(** X13.  A file whose type the filter rejects is answered by the error
    handler with status 500 and the filter's message, not with 400: the
    filter's error is not a [MulterError]. *)
Theorem rejected_type_is_answered_500 (mimetype : string) (headersSent : bool) :
  includes allowedMimes mimetype = false ->
  snd (fileFilter mimetype) = false
  /\ errorHandler (fst (fileFilter mimetype)) headersSent
     = Some (jsonError 500 "Invalid file type. Only image files are allowed.").
Proof.
  intros H. unfold fileFilter. rewrite H. split; reflexivity.
Qed.

Lemma rejected_type_is_answered_500_witness :
  includes allowedMimes "image/svg+xml" = false
  /\ errorHandler (fst (fileFilter "image/svg+xml")) false
     = Some (jsonError 500 "Invalid file type. Only image files are allowed.").
Proof.
  split; [reflexivity|].
  apply (rejected_type_is_answered_500 "image/svg+xml" false). reflexivity.
Defined.

(** X14.  The upload filter accepts a type exactly when it is [image/]
    followed by one of the six output formats. *)
Theorem upload_types_are_output_formats (mimetype : string) :
  snd (fileFilter mimetype) = true <->
  exists f, In f supportedFormats /\ mimetype = "image/" ++ f.
Proof.
  unfold fileFilter. split.
  - destruct (includes allowedMimes mimetype) eqn:E; [intros _|discriminate].
    apply includes_In in E. simpl in E.
    destruct E as [<-|[<-|[<-|[<-|[<-|[<-|[]]]]]]];
      eexists; (split; [|reflexivity]); simpl; tauto.
  - intros (f & Hf & ->). simpl in Hf.
    destruct Hf as [<-|[<-|[<-|[<-|[<-|[<-|[]]]]]]]; reflexivity.
Qed.

End ServerExtras.

(** * Further properties of image-processing/node/image-processing.js *)

Module ScriptExtras.
Import JS ImageProcessing ScriptSpec Script ScriptExtraSpec ServerProofs.

(** ** The output file name and the overlay *)

Lemma allChars_app p a b : allChars p (a ++ b) = allChars p a && allChars p b.
Proof.
  induction a as [|c a IH]; [reflexivity|]. cbn [append allChars].
  now rewrite IH, andb_assoc.
Qed.

Lemma lowered_letter_or_digit c :
  isAlphaNumeric (lowerChar c) = true -> isFileNameChar (lowerChar c) = true.
Proof. destruct c as [[] [] [] [] [] [] [] []]; intros H; try reflexivity; discriminate H. Qed.

Lemma lowered_filter_chars_from skip s :
  allChars isFileNameChar (replaceFrom skip (toLowerCase s)) = true.
Proof.
  revert skip. induction s as [|c s IH]; intros skip; [now destruct skip|].
  cbn [toLowerCase replaceFrom]. destruct skip as [|k]; [|apply IH].
  destruct (isAlphaNumeric (lowerChar c)) eqn:E.
  - cbn [allChars]. now rewrite IH, lowered_letter_or_digit.
  - destruct (headChar _ _) as [cp extra].
    rewrite allChars_app, IH. now destruct (cp <? _)%N.
Qed.

Lemma lowered_filter_chars s :
  allChars isFileNameChar (replaceNonAlphaNumeric (toLowerCase s)) = true.
Proof. apply lowered_filter_chars_from. Qed.

(** X15.  Whatever the filter and the text, the output file name consists
    of lower-case letters, digits, underscores and dots only (so it has no
    path separator), starts with [processed_image] and ends with [.png]. *)
Theorem baseFilename_is_safe (filterToApply textToApply : option string) :
  let name := baseFilename filterToApply textToApply in
  allChars isFileNameChar name = true
  /\ lacks "/" name = true
  /\ startsWith "processed_image" name = true
  /\ (exists stem, name = stem ++ ".png").
Proof.
  intros name.
  assert (Hsafe : allChars isFileNameChar name = true).
  { subst name. unfold baseFilename.
    rewrite !allChars_app.
    destruct (truthy filterToApply); destruct (truthy textToApply);
      repeat match goal with
      | |- context [if ?b then _ else _] => destruct b
      end;
      rewrite ?allChars_app, ?lowered_filter_chars; reflexivity. }
  split; [exact Hsafe|]. split; [|split].
  - revert Hsafe. generalize name. clear. intros s.
    induction s as [|c s IH]; [reflexivity|].
    cbn [allChars lacks]. intros H. apply andb_true_iff in H as [Hc Hs].
    rewrite (IH Hs), andb_true_r.
    destruct c as [[] [] [] [] [] [] [] []]; try reflexivity; discriminate Hc.
  - reflexivity.
  - subst name. unfold baseFilename. eexists.
    rewrite <- !ServerProofs.append_assoc. reflexivity.
Qed.

(** X16.  For an image of positive height, the baseline of the overlay
    text lies above the bottom edge, and it lies below the top edge exactly
    when the image is at least 12 pixels high. *)
Theorem overlay_baseline_position (h : Z) :
  (0 < h)%Z -> (0 < overlayY h <-> (12 <= h)%Z) /\ overlayY h < inject_Z h.
Proof.
  intros H.
  assert (H20 : (20 * (h / 20) <= h)%Z) by (apply Z.mul_div_le; lia).
  assert (H50 : (50 * (h / 50) <= h)%Z) by (apply Z.mul_div_le; lia).
  assert (P20 : (0 <= h / 20)%Z) by (apply Z.div_pos; lia).
  assert (P50 : (0 <= h / 50)%Z) by (apply Z.div_pos; lia).
  unfold overlayY, overlayFontSize, overlayPadding.
  destruct (Z_lt_le_dec h 12) as [Hsmall|Hbig].
  - rewrite !Z.div_small by lia.
    unfold Qlt, Qminus, Qplus, Qdiv, Qmult, Qopp, Qinv, inject_Z. simpl.
    split; [split|]; lia.
  - set (a := (h / 20)%Z) in *. set (b := (h / 50)%Z) in *.
    unfold Qlt, Qminus, Qplus, Qdiv, Qmult, Qopp, Qinv, inject_Z. simpl.
    split; [split|]; lia.
Qed.

Lemma overlay_baseline_position_witness :
  (0 < overlayY 300 <-> (12 <= 300)%Z) /\ overlayY 300 < inject_Z 300.
Proof. apply (overlay_baseline_position 300). reflexivity. Defined.

(** X17.  The script copies the text and the colour into the overlay as
    they are: the text is not escaped. *)
Theorem overlayText_is_verbatim (otherToString : Q -> string) (w h : Z)
    (textToAdd textColorHex : string) :
  contains (overlayText otherToString w h textToAdd textColorHex)
    (">" ++ textToAdd ++ "</text>")
  /\ contains (overlayText otherToString w h textToAdd textColorHex)
       ("fill: " ++ textColorHex ++ ";").
Proof. split; unfold overlayText, NL, DQ; locate. Qed.

(** ** The computations *)

Section World.

Variable FS : Type.
Variable fs_existsSync : FS -> string -> bool.
Variable fs_readFile : FS -> string -> Result Buffer.
Variable fs_writeFile : FS -> string -> Buffer -> FS * Result unit.
Variable fs_mkdirSync : FS -> string -> FS * Result unit.
Variable axios_get : string -> Result Buffer.
Variable path_join : string -> string -> string.
Variable env : string -> option string.
Variable Ocean_getInstance : config.t -> Result ocean.t.
Variable sharp_metadata : Buffer -> Result imageMetadata.t.
Variable sharp_toBuffer : Buffer -> list Operation -> Result Buffer.
Variable toISOString_now : string.
Variable otherToString : Q -> string.

Local Abbreviation download := (downloadOceanAsset FS fs_writeFile axios_get).
Local Abbreviation getImage :=
  (getImageBuffer FS fs_existsSync fs_readFile fs_writeFile fs_mkdirSync axios_get
     path_join env).
Local Abbreviation init := (initializeOcean FS env Ocean_getInstance).
Local Abbreviation applyFilter :=
  (applyFilterAndTextToBuffer FS sharp_metadata sharp_toBuffer otherToString).
Local Abbreviation save :=
  (saveOutputs FS fs_existsSync fs_writeFile fs_mkdirSync path_join env toISOString_now).
Local Abbreviation mainRun :=
  (main FS fs_existsSync fs_readFile fs_writeFile fs_mkdirSync axios_get path_join env
     Ocean_getInstance sharp_metadata sharp_toBuffer toISOString_now otherToString).

Ltac run :=
  unfold tryCatch, bind, emit, call, ret, lift, existsSync, readFile, writeFile,
    mkdirSync, value, events, finalState, externalCalls.

Lemma externalCalls_app a b : externalCalls (a ++ b) = (externalCalls a ++ externalCalls b)%list.
Proof. apply filter_app. Qed.

Lemma quietly_ret {A} (a : A) fs (P : A -> Prop) : P a -> quietly (ret FS a) fs P.
Proof. intros H. now exists [], a. Qed.

Lemma quietly_emit e fs (P : unit -> Prop) :
  isExternal e = false -> P tt -> quietly (emit FS e) fs P.
Proof.
  intros He H. exists [e], tt. repeat split; [|assumption].
  unfold externalCalls. cbn. now rewrite He.
Qed.

Lemma quietly_bind {A B} (m : M FS A) (k : A -> M FS B) fs P Q :
  quietly m fs P -> (forall a, P a -> quietly (k a) fs Q) ->
  quietly (bind FS m k) fs Q.
Proof.
  intros (l & r & Em & Hl & Hr) Hk.
  destruct (Hk r Hr) as (l' & r' & Ek & Hl' & Hr').
  exists (l ++ l')%list, r'. unfold bind. rewrite Em, Ek.
  repeat split; [|assumption]. now rewrite externalCalls_app, Hl, Hl'.
Qed.

Lemma neverThrows_emit e : neverThrows (emit FS e).
Proof. intros fs. now exists tt. Qed.

Lemma neverThrows_bind {A B} (m : M FS A) (k : A -> M FS B) :
  neverThrows m -> (forall a, neverThrows (k a)) -> neverThrows (bind FS m k).
Proof.
  intros Hm Hk fs. unfold bind, value.
  destruct (m fs) as [[l fs1] [a|e]] eqn:Em.
  - destruct (Hk a fs1) as (r & Hr). unfold value in Hr.
    destruct (k a fs1) as [[l' fs2] r']. cbn in *. now exists r.
  - destruct (Hm fs) as (r & Hr). rewrite Em in Hr. discriminate Hr.
Qed.

Lemma neverThrows_tryCatch {A} (m : M FS A) (h : string -> M FS A) :
  (forall e, neverThrows (h e)) -> neverThrows (tryCatch FS m h).
Proof.
  intros Hh fs. unfold tryCatch, value.
  destruct (m fs) as [[l fs1] [a|e]]; [now exists a|].
  destruct (Hh e fs1) as (r & Hr). unfold value in Hr.
  destruct (h e fs1) as [[l' fs2] r']. cbn in *. now exists r.
Qed.

Lemma runs_after_quiet {A B} (m : M FS A) (k : A -> M FS B) fs calls P Q :
  quietly m fs P -> (forall a, P a -> runs (k a) fs calls Q) ->
  runs (bind FS m k) fs calls Q.
Proof.
  intros (l & r & Em & Hl & Hr) Hk.
  destruct (Hk r Hr) as (l' & r' & Ek & Hl' & Hr').
  exists (l ++ l')%list, r'. unfold bind. rewrite Em, Ek.
  repeat split; [|assumption]. now rewrite externalCalls_app, Hl, Hl'.
Qed.

Lemma runs_then_quiet {A B} (m : M FS A) (k : A -> M FS B) fs calls P Q :
  runs m fs calls P -> (forall a, P a -> quietly (k a) fs Q) ->
  runs (bind FS m k) fs calls Q.
Proof.
  intros (l & r & Em & Hl & Hr) Hk.
  destruct (Hk r Hr) as (l' & r' & Ek & Hl' & Hr').
  exists (l ++ l')%list, r'. unfold bind. rewrite Em, Ek.
  repeat split; [|assumption]. now rewrite externalCalls_app, Hl, Hl', app_nil_r.
Qed.

(** What [initializeOcean] does: nothing when one of its variables is
    missing, and one call of the constructor otherwise. *)
Lemma initializeOcean_runs fs :
  runs init fs
    (if oceanConfigured env then [GetInstance (oceanConfig env)] else [])
    (fun r =>
       r = if oceanConfigured env
           then instanceOrNull (Ocean_getInstance (oceanConfig env))
           else None).
Proof.
  unfold initializeOcean, oceanConfigured.
  destruct (truthy (env "OCEAN_NODE_URL")); cbn [negb orb andb];
    [destruct (truthy (env "OCEAN_PROVIDER_URL")); cbn [negb orb andb];
     [destruct (truthy (env "OCEAN_CHAIN_ID")); cbn [negb orb andb]|]|].
  2-4: run; cbn; now eexists; eexists.
  run. destruct (Ocean_getInstance (oceanConfig env)) as [oc|e];
    [destruct (ocean.provider oc)|]; cbn; now eexists; eexists.
Qed.

Lemma applyFilter_quiet imageBuffer filterType textToAdd textColorHex fs :
  exists l r,
    applyFilter imageBuffer filterType textToAdd textColorHex fs = (l, fs, Ok r)
    /\ externalCalls l = [].
Proof.
  unfold applyFilterAndTextToBuffer.
  destruct imageBuffer as [input|]; [|run; cbn; now eexists; eexists].
  run. destruct (sharp_metadata input) as [[[w|] [h|]]|e];
    cbn [imageMetadata.width imageMetadata.height];
    repeat match goal with
    | |- context [if ?c then _ else _] => destruct c
    end;
    cbn -[overlayText];
    repeat match goal with
    | |- context [sharp_toBuffer ?i ?ops] => destruct (sharp_toBuffer i ops)
    end;
    cbn -[overlayText]; now eexists; eexists.
Qed.

Lemma getImageBuffer_missing_path oceanInstance fs :
  truthy (env "INPUT_FILE_PATH_0") = true ->
  fs_existsSync fs (ToString (env "INPUT_FILE_PATH_0")) = false ->
  exists l, getImage oceanInstance fs = (l, fs, Ok None) /\ externalCalls l = [].
Proof.
  intros Hset Hmissing. unfold getImageBuffer. rewrite Hset. run.
  rewrite Hmissing. cbn. now eexists.
Qed.

Lemma getImageBuffer_without_instance fs :
  truthy (env "INPUT_FILE_PATH_0") = false ->
  truthy (env "INPUT_DID_0") = true ->
  exists l, getImage None fs = (l, fs, Ok None) /\ externalCalls l = [].
Proof.
  intros Hfile Hdid. unfold getImageBuffer. rewrite Hfile, Hdid. run.
  cbn. now eexists.
Qed.

(** *** initializeOcean and downloadOceanAsset *)

(** X18.  [initializeOcean] never throws.  When one of its three
    variables is missing or empty it returns [null] and calls nothing.
    Otherwise its one external call is the SDK's constructor, on a
    configuration with these variables (the chain identifier parsed by
    [parseInt]), and it returns the instance the constructor gives, or
    [null] when the constructor throws. *)
Theorem initializeOcean_outcome (fs : FS) :
  (exists result, value (init fs) = Ok result)
  /\ (oceanConfigured env = false ->
      value (init fs) = Ok None /\ externalCalls (events (init fs)) = [])
  /\ (oceanConfigured env = true ->
      exists cfg,
        externalCalls (events (init fs)) = [GetInstance cfg]
        /\ value (init fs) = Ok (instanceOrNull (Ocean_getInstance cfg))
        /\ config.networkNodeUri cfg = ToString (env "OCEAN_NODE_URL")
        /\ config.nodeUri cfg = ToString (env "OCEAN_NODE_URL")
        /\ config.providerUri cfg = ToString (env "OCEAN_PROVIDER_URL")
        /\ config.chainId cfg = parseIntAuto (env "OCEAN_CHAIN_ID")).
Proof.
  destruct (initializeOcean_runs fs) as (l & r & E & Hl & Hr). rewrite E.
  unfold value, events. cbn [fst snd].
  split; [now exists r|]. split.
  - intros H. rewrite H in Hl, Hr. now rewrite Hl, Hr.
  - intros H. rewrite H in Hl, Hr. exists (oceanConfig env).
    rewrite Hl, Hr. now repeat split.
Qed.

Lemma downloadOceanAsset_path oceanInstance did downloadPath fs :
  value (download oceanInstance did downloadPath fs) = Ok None
  \/ value (download oceanInstance did downloadPath fs) = Ok (Some downloadPath).
Proof.
  unfold downloadOceanAsset.
  destruct oceanInstance as [oc|]; [|run; cbn; auto].
  run.
  destruct (ocean.assets_resolve oc did) as [[d|]|e]; [|cbn; auto..].
  destruct (find _ (ddo.services d)) as [sv|];
    [|destruct (ddo.services d) as [|sv others]; [cbn; auto|]];
    cbn;
    (destruct (ocean.provider oc) as [pr|]; [|cbn; auto]);
    cbn;
    (destruct (provider.getEncryptedFiles pr _ _ _) as [[[|fo rest]|]|e];
      [cbn; auto| |cbn; auto..]);
    cbn;
    (destruct (fileObject.url fo) as [[|c url]|]; [cbn; auto| |cbn; auto]);
    cbn [truthy ToString];
    (destruct (axios_get (String c url)) as [data|e]; [|cbn; auto]);
    (destruct (fs_writeFile fs downloadPath data) as [fs' [[]|e]]; cbn; auto).
Qed.

(** X19.  [downloadOceanAsset] never throws and returns [null] or the
    download path it was given.  When it returns the path, the asset was
    resolved, the service is the first of type [access] or else the first
    one, the provider named a file with a URL, that URL was fetched and its
    content written to the download path, in this order and with no other
    external call. *)
Theorem downloadOceanAsset_result oceanInstance did downloadPath fs :
  let run := download oceanInstance did downloadPath fs in
  (value run = Ok None \/ value run = Ok (Some downloadPath))
  /\ (forall p, value run = Ok (Some p) ->
      exists oc d sv pr fo rest url data,
        oceanInstance = Some oc
        /\ ocean.assets_resolve oc did = Ok (Some d)
        /\ chosenService d = Some sv
        /\ ocean.provider oc = Some pr
        /\ provider.getEncryptedFiles pr (ddo.id d) (service.id sv) publisherAddress
           = Ok (Some (fo :: rest))
        /\ fileObject.url fo = Some url /\ url <> EmptyString
        /\ axios_get url = Ok data
        /\ fs_writeFile fs downloadPath data = (finalState run, Ok tt)
        /\ externalCalls (events run)
           = [AssetsResolve did; GetEncryptedFiles (ddo.id d) (service.id sv);
              AxiosGet url; FsWriteFile downloadPath]).
Proof.
  intros run. subst run. unfold downloadOceanAsset.
  destruct oceanInstance as [oc|];
    [|run; cbn; split; [now left | intros p H; discriminate H]].
  run.
  destruct (ocean.assets_resolve oc did) as [[d|]|e] eqn:Eresolve;
    [|cbn; split; [now left | intros p H; discriminate H]..].
  unfold chosenService.
  destruct (find _ (ddo.services d)) as [sv|] eqn:Efind;
    [|destruct (ddo.services d) as [|sv others] eqn:Eservices;
      [cbn; split; [now left | intros p H; discriminate H]|]];
    cbn;
    (destruct (ocean.provider oc) as [pr|] eqn:Eprov;
      [|cbn; split; [now left | intros p H; discriminate H]]);
    cbn;
    (destruct (provider.getEncryptedFiles pr _ _ _) as [[[|fo rest]|]|e] eqn:Efiles;
      [cbn; split; [now left | intros p H; discriminate H]| |
       cbn; split; [now left | intros p H; discriminate H]..]);
    cbn;
    (destruct (fileObject.url fo) as [[|c url]|] eqn:Eurl;
      [cbn; split; [now left | intros p H; discriminate H]| |
       cbn; split; [now left | intros p H; discriminate H]]);
    cbn [truthy ToString];
    (destruct (axios_get (String c url)) as [data|e] eqn:Eget;
      [|cbn; split; [now left | intros p H; discriminate H]]);
    (destruct (fs_writeFile fs downloadPath data) as [fs' [[]|e]] eqn:Ewrite;
      [|cbn; split; [now left | intros p H; discriminate H]]);
    cbn; (split; [now right|]); intros p _;
    exists oc, d, sv, pr, fo, rest, (String c url), data;
    repeat split; try assumption; try reflexivity; try discriminate;
    try (rewrite Efind; reflexivity);
    try (rewrite Eservices, Efind; reflexivity).
Qed.
(** X20.  With no local path configured, a buffer that [getImageBuffer]
    returns for an asset identifier is what it read from the download path
    after a successful download, the download directory having been
    created when it was missing. *)
Theorem getImageBuffer_asset_buffer oc fs b :
  truthy (env "INPUT_FILE_PATH_0") = false ->
  truthy (env "INPUT_DID_0") = true ->
  value (getImage (Some oc) fs) = Ok (Some b) ->
  let did := ToString (env "INPUT_DID_0") in
  let dir :=
    path_join (orStr (orElse (env "OUTPUT_DIR") (env "RESULTS_DIR")) "/data/outputs")
      "temp_downloads" in
  let path := path_join dir (replaceNonAlphaNumeric did ++ ".tmp") in
  exists fs1,
    (fs1 = fs \/ fs_mkdirSync fs dir = (fs1, Ok tt))
    /\ value (download (Some oc) did path fs1) = Ok (Some path)
    /\ fs_readFile (finalState (download (Some oc) did path fs1)) path = Ok b.
Proof.
  intros Hfile Hdid. cbv zeta. unfold getImageBuffer. rewrite Hfile, Hdid.
  unfold tryCatch, bind, emit, ret, existsSync, readFile, mkdirSync, value, finalState.
  set (did := ToString (env "INPUT_DID_0")).
  set (dir := path_join _ "temp_downloads").
  set (path := path_join dir _).
  destruct (fs_existsSync fs dir); cbv beta iota; cbn [negb].
  - destruct (download (Some oc) did path fs) as [[l fs2] [[[|c p]|]|e]] eqn:Ed;
      cbv beta iota; cbn [truthy ToString fst snd]; try discriminate.
    destruct (fs_readFile fs2 (String c p)) as [data|e] eqn:Er;
      cbv beta iota; cbn [fst snd]; [|discriminate].
    intros [= <-]. exists fs.
    destruct (downloadOceanAsset_path (Some oc) did path fs) as [H|H];
      rewrite Ed in H; cbn in H; [discriminate H|].
    injection H as H. rewrite Ed. cbn [fst snd]. rewrite <- H. auto.
  - destruct (fs_mkdirSync fs dir) as [fs1 [[]|e]] eqn:Em;
      cbv beta iota; cbn [fst snd]; [|discriminate].
    destruct (download (Some oc) did path fs1) as [[l fs2] [[[|c p]|]|e]] eqn:Ed;
      cbv beta iota; cbn [truthy ToString fst snd]; try discriminate.
    destruct (fs_readFile fs2 (String c p)) as [data|e] eqn:Er;
      cbv beta iota; cbn [fst snd]; [|discriminate].
    intros [= <-]. exists fs1.
    destruct (downloadOceanAsset_path (Some oc) did path fs1) as [H|H];
      rewrite Ed in H; cbn in H; [discriminate H|].
    injection H as H. rewrite Ed. cbn [fst snd]. rewrite <- H. auto.
Qed.

(** *** applyFilterAndTextToBuffer *)

(** X21.  [applyFilterAndTextToBuffer] never throws, leaves the file system
    alone and makes no external call; it returns [null] when the buffer is
    missing or the metadata cannot be read.  A buffer it returns is the
    library's output for at most one filter followed by at most one overlay
    placed at the top left; the overlay is there only when the text is not
    blank and both dimensions are known and not zero. *)
Theorem applyFilter_outcome imageBuffer filterType textToAdd textColorHex fs :
  let run := applyFilter imageBuffer filterType textToAdd textColorHex fs in
  (exists result, value run = Ok result)
  /\ finalState run = fs
  /\ externalCalls (events run) = []
  /\ (imageBuffer = None -> value run = Ok None)
  /\ (forall input e, imageBuffer = Some input -> sharp_metadata input = Throw e ->
      value run = Ok None)
  /\ (forall b, value run = Ok (Some b) ->
      exists input md filter overlay,
        imageBuffer = Some input
        /\ sharp_metadata input = Ok md
        /\ sharp_toBuffer input (filter ++ overlay) = Ok b
        /\ In filter filterChoices
        /\ (overlay = []
            \/ exists w h text,
                 overlay = [composite (overlayText otherToString w h text textColorHex) 0 0]
                 /\ textToAdd = Some text /\ trim text <> EmptyString
                 /\ imageMetadata.width md = Some w /\ w <> 0%Z
                 /\ imageMetadata.height md = Some h /\ h <> 0%Z)).
Proof.
  intros run. subst run. unfold applyFilterAndTextToBuffer.
  destruct imageBuffer as [input|];
    [|run; cbn; (split; [eexists; reflexivity|]); repeat split; discriminate].
  run.
  destruct (sharp_metadata input) as [md|e] eqn:Emd;
    [|cbn; (split; [eexists; reflexivity|]); repeat split; discriminate].
  set (eff := if truthy filterType then toLowerCase (trim (ToString filterType)) else "none").
  assert (Hchoice : In (filterOperations eff) filterChoices).
  { unfold filterOperations, filterChoices.
    repeat match goal with |- context [if ?b then _ else _] => destruct b end;
      simpl; auto 6. }
  generalize dependent (filterOperations eff). intros filter Hfilter.
  destruct md as [[w|] [h|]]; cbn [imageMetadata.width imageMetadata.height] in *.
  all: repeat match goal with
       | |- context [if ?c then _ else _] => destruct c eqn:?
       end.
  all: cbn -[overlayText].
  all: repeat match goal with
       | |- context [sharp_toBuffer ?i ?ops] =>
           destruct (sharp_toBuffer i ops) eqn:?
       end.
  all: cbn -[overlayText]; (split; [eexists; reflexivity|]); repeat split;
    try discriminate.
  all: try (intros ? ? [= <-] ?; congruence).
  all: intros b' [= <-].
  all: try match goal with
       | H : sharp_toBuffer _ ?f = Ok _ |- _ =>
           is_var f; rewrite <- (app_nil_r f) in H
       | H : sharp_toBuffer _ (@nil _) = Ok _ |- _ =>
           change (@nil Operation) with (@nil Operation ++ [])%list in H
       | H : sharp_toBuffer _ [?c] = Ok _ |- _ =>
           change [c] with ([] ++ [c])%list in H
       end.
  all: eexists; eexists; eexists; eexists.
  all: (split; [reflexivity|]); (split; [eassumption|]); (split; [eassumption|]);
    (split; [first [assumption | simpl; auto]|]).
  all: try (left; reflexivity).
  all: right; do 2 eexists.
  all: destruct textToAdd as [text|]; [|discriminate].
  all: exists text.
  all: repeat match goal with
       | H : _ && _ = true |- _ => apply andb_true_iff in H as [? ?]
       end.
  all: repeat split; try reflexivity.
  all: try (intros ->; discriminate).
  all: match goal with
       | H : negb (String.eqb (trim (ToString (Some ?t))) EmptyString) = true |- _ =>
           cbn [ToString] in H; apply negb_true_iff in H;
           intros E; rewrite E in H; discriminate H
       end.
Qed.
(** *** saveOutputs and main *)

Ltac log_step :=
  eapply quietly_bind with (P := fun _ => True);
  [apply quietly_emit; [reflexivity | exact I]|]; intros _ _.

Lemma oceanPhase_runs fs :
  runs
    (if truthy (orElse (env "INPUT_DID_0") (env "ENABLE_OCEAN_FEATURES")) then
       bind FS init (fun oc =>
         bind FS
           match oc with
           | None =>
               emit FS (LoggerError "Failed to initialize Ocean Protocol. Proceeding without Ocean capabilities if possible.")
           | Some _ => emit FS (LoggerLog "Ocean Protocol instance initialized successfully.")
           end
           (fun _ => ret FS oc))
     else ret FS None) fs (constructorCalls env)
    (fun oc => truthy (env "INPUT_DID_0") = true -> value (init fs) = Ok None -> oc = None).
Proof.
  unfold constructorCalls.
  destruct (truthy (orElse (env "INPUT_DID_0") (env "ENABLE_OCEAN_FEATURES"))) eqn:E;
    cbn [andb].
  - destruct (initializeOcean_runs fs) as (l & r & Ei & Hl & _).
    eapply runs_then_quiet with (P := fun oc => oc = r).
    + now exists l, r.
    + intros oc ->. eapply quietly_bind with (P := fun _ => True).
      * destruct r; apply quietly_emit; (reflexivity || exact I).
      * intros _ _. apply quietly_ret. intros _ H. rewrite Ei in H. cbn in H.
        now injection H.
  - apply quietly_ret. reflexivity.
Qed.

Lemma runs_value {A} (m : M FS A) fs calls (P : A -> Prop) :
  runs m fs calls P ->
  (exists r, value (m fs) = Ok r /\ P r) /\ externalCalls (events (m fs)) = calls.
Proof.
  intros (l & r & E & Hl & Hr). rewrite E. cbn. split; [now exists r | assumption].
Qed.

(** X22.  With a local path configured that does not exist, [main] reads,
    writes, creates and fetches nothing, whatever else is configured: it
    makes no external call but that of the SDK's constructor, which it
    makes first when the SDK is to be initialised. *)
Theorem main_missing_file fs :
  truthy (env "INPUT_FILE_PATH_0") = true ->
  fs_existsSync fs (ToString (env "INPUT_FILE_PATH_0")) = false ->
  value (mainRun fs) = Ok tt
  /\ externalCalls (events (mainRun fs)) = constructorCalls env.
Proof.
  intros Hset Hmissing.
  assert (Hq : runs mainRun fs (constructorCalls env) (fun _ => True)).
  { unfold main.
    eapply runs_after_quiet with (P := fun _ => True);
      [apply quietly_emit; [reflexivity | exact I]|]; intros _ _.
    eapply runs_then_quiet; [apply oceanPhase_runs|]. intros oc _.
    do 8 log_step.
    eapply quietly_bind with (P := fun b => b = None).
    - destruct (getImageBuffer_missing_path oc fs Hset Hmissing) as (l & E & Hl).
      now exists l, None.
    - intros b ->. apply quietly_emit; [reflexivity | exact I]. }
  destruct (runs_value _ _ _ _ Hq) as ((r & Hr & _) & Hev).
  destruct r. now split.
Qed.

(** X23.  With no local path and an asset identifier configured, when
    [initializeOcean] gives no instance (a variable is missing, or the
    constructor throws) [main] stops there, even with a URL configured: it
    reads, writes, creates and fetches nothing, and its only external call
    is that of the constructor, if it was made. *)
Theorem main_asset_without_instance fs :
  truthy (env "INPUT_FILE_PATH_0") = false ->
  truthy (env "INPUT_DID_0") = true ->
  value (init fs) = Ok None ->
  value (mainRun fs) = Ok tt
  /\ externalCalls (events (mainRun fs))
     = if oceanConfigured env then [GetInstance (oceanConfig env)] else [].
Proof.
  intros Hfile Hdid Hinit.
  assert (Hq : runs mainRun fs (constructorCalls env) (fun _ => True)).
  { unfold main.
    eapply runs_after_quiet with (P := fun _ => True);
      [apply quietly_emit; [reflexivity | exact I]|]; intros _ _.
    eapply runs_then_quiet; [apply oceanPhase_runs|]. intros oc Hoc.
    rewrite (Hoc Hdid Hinit).
    do 8 log_step.
    eapply quietly_bind with (P := fun b => b = None).
    - destruct (getImageBuffer_without_instance fs Hfile Hdid) as (l & E & Hl).
      now exists l, None.
    - intros b ->. apply quietly_emit; [reflexivity | exact I]. }
  destruct (runs_value _ _ _ _ Hq) as ((r & Hr & _) & Hev).
  destruct r. split; [assumption|]. rewrite Hev. unfold constructorCalls, orElse.
  now rewrite Hdid, Hdid.
Qed.

Lemma runs_neverThrows {A} (m : M FS A) (calls : FS -> list Event) :
  (forall fs, runs m fs (calls fs) (fun _ => True)) -> neverThrows m.
Proof.
  intros H fs. destruct (H fs) as (l & r & E & _). exists r. now rewrite E.
Qed.

Lemma quietly_neverThrows {A} (m : M FS A) :
  (forall fs, quietly m fs (fun _ => True)) -> neverThrows m.
Proof. apply (runs_neverThrows m (fun _ => [])). Qed.

Lemma saveOutputs_neverThrows out f t buf : neverThrows (save out f t buf).
Proof.
  unfold saveOutputs. apply neverThrows_tryCatch.
  intros e. apply neverThrows_emit.
Qed.

(** X24.  [main] never throws. *)
Theorem main_never_throws : neverThrows mainRun.
Proof.
  unfold main.
  apply neverThrows_bind; [apply neverThrows_emit|]. intros _.
  apply neverThrows_bind.
  { apply (runs_neverThrows _ (fun _ => constructorCalls env)). intros fs.
    destruct (oceanPhase_runs fs) as (l & r & E & Hl & _). now exists l, r. }
  intros oc.
  do 8 (apply neverThrows_bind; [apply neverThrows_emit|]; intros _).
  apply neverThrows_bind.
  { intros fs. apply ImageProcessingProofs.getImageBuffer_returns. }
  intros [b|]; [|apply neverThrows_emit].
  apply neverThrows_bind.
  { apply quietly_neverThrows. intros fs.
    destruct (applyFilter_quiet (Some b)
                (orElse (env "INPUT_FILTERTYPE") (env "DEFAULT_FILTER"))
                (orElse (env "INPUT_TEXT") (env "DEFAULT_TEXT"))
                (orStr (orElse (env "INPUT_TEXT_COLOR") (env "DEFAULT_TEXT_COLOR"))
                   "#00DD00") fs) as (l & r & E & Hl).
    now exists l, r. }
  intros [processed|]; [apply saveOutputs_neverThrows | apply neverThrows_emit].
Qed.

(** X25.  [saveOutputs] never throws.  It creates the output directory
    only when it is missing, writes the image first and the manifest only
    after the image was written; the manifest names the image file and
    gives the length of the buffer. *)
Theorem saveOutputs_order out f t buf fs :
  let run := save out f t buf fs in
  let image := path_join out (baseFilename f t) in
  let manifest := path_join out "results.json" in
  let json :=
    resultsJson toISOString_now (orStr (env "ALGORITHM_DID") "unknown")
      (orStr (env "JOB_ID") "unknown") (baseFilename f t)
      (Z.of_nat (List.length buf)) in
  let '(fs0, ready, made) :=
    if fs_existsSync fs out then (fs, Ok tt, [])
    else (fst (fs_mkdirSync fs out), snd (fs_mkdirSync fs out), [FsMkdir out]) in
  value run = Ok tt
  /\ match ready with
     | Throw _ => externalCalls (events run) = made /\ finalState run = fs0
     | Ok _ =>
         match fs_writeFile fs0 image buf with
         | (fs1, Throw _) =>
             externalCalls (events run) = (made ++ [FsWriteFile image])%list
             /\ finalState run = fs1
         | (fs1, Ok _) =>
             externalCalls (events run)
             = (made ++ [FsWriteFile image; FsWriteFile manifest])%list
             /\ finalState run = fst (fs_writeFile fs1 manifest (list_byte_of_string json))
         end
     end.
Proof.
  unfold saveOutputs. run.
  destruct (fs_existsSync fs out); cbn [negb].
  - destruct (fs_writeFile fs _ buf) as [fs1 [[]|e]]; [|cbn; repeat split].
    destruct (fs_writeFile fs1 _ _) as [fs2 [[]|e]]; cbn; repeat split.
  - destruct (fs_mkdirSync fs out) as [fs0 [[]|e]]; cbn [fst snd]; [|cbn; repeat split].
    destruct (fs_writeFile fs0 _ buf) as [fs1 [[]|e]]; [|cbn; repeat split].
    destruct (fs_writeFile fs1 _ _) as [fs2 [[]|e]]; cbn; repeat split.
Qed.

Lemma runs_then {A B} (m : M FS A) (k : A -> M FS B) fs calls P :
  runs m fs calls P ->
  exists a,
    P a
    /\ externalCalls (events (bind FS m k fs))
       = (calls ++ externalCalls (events (k a fs)))%list
    /\ finalState (bind FS m k fs) = finalState (k a fs)
    /\ value (bind FS m k fs) = value (k a fs).
Proof.
  intros (l & a & E & Hl & Ha). exists a. split; [assumption|].
  unfold bind. rewrite E. destruct (k a fs) as [[l' fs'] r].
  unfold events, finalState, value. cbn [fst snd].
  now rewrite externalCalls_app, Hl.
Qed.

Lemma quietly_then {A B} (m : M FS A) (k : A -> M FS B) fs P :
  quietly m fs P ->
  exists a,
    P a
    /\ externalCalls (events (bind FS m k fs)) = externalCalls (events (k a fs))
    /\ finalState (bind FS m k fs) = finalState (k a fs)
    /\ value (bind FS m k fs) = value (k a fs).
Proof. apply (runs_then m k fs []). Qed.

Ltac skip_quiet H :=
  match goal with
  | |- context [bind FS ?m ?k ?fs] =>
      let a := fresh "a" in
      let Ha := fresh "Ha" in
      let E1 := fresh "E" in
      let E2 := fresh "E" in
      let E3 := fresh "E" in
      destruct (quietly_then m k fs _ H) as (a & Ha & E1 & E2 & E3);
      rewrite ?E1, ?E2, ?E3; clear E1 E2 E3
  end.

Lemma getImageBuffer_from_url oceanInstance fs url :
  truthy (env "INPUT_FILE_PATH_0") = false ->
  truthy (env "INPUT_DID_0") = false ->
  orElse (env "INPUT_IMAGE_URL") (env "IMAGE_URL") = Some url -> url <> EmptyString ->
  exists l,
    getImage oceanInstance fs = (l, fs, match axios_get url with
                                        | Ok b => Ok (Some b)
                                        | Throw _ => Ok None
                                        end)
    /\ externalCalls l = [AxiosGet url].
Proof.
  intros Hfile Hdid Hurl Hne. unfold getImageBuffer.
  rewrite Hfile, Hdid, Hurl. destruct url as [|c url]; [contradiction|].
  cbn [truthy ToString]. run. destruct (axios_get _); cbn; now eexists.
Qed.

(** X26.  With a URL as the source, [main] makes the call of the SDK's
    constructor, if the SDK is to be initialised, then fetches that URL,
    and makes no other external call before saving: when the fetch or the
    processing fails it writes nothing, otherwise its further external
    calls and its final state are those of [saveOutputs] on the processed
    buffer. *)
Theorem main_from_url fs url :
  truthy (env "INPUT_FILE_PATH_0") = false ->
  truthy (env "INPUT_DID_0") = false ->
  orElse (env "INPUT_IMAGE_URL") (env "IMAGE_URL") = Some url -> url <> EmptyString ->
  let filterToApply := orElse (env "INPUT_FILTERTYPE") (env "DEFAULT_FILTER") in
  let textToApply := orElse (env "INPUT_TEXT") (env "DEFAULT_TEXT") in
  let colorForText :=
    orStr (orElse (env "INPUT_TEXT_COLOR") (env "DEFAULT_TEXT_COLOR")) "#00DD00" in
  let outputDirectory :=
    orStr (orElse (env "OUTPUT_DIR") (env "RESULTS_DIR")) "/data/outputs" in
  match axios_get url with
  | Throw _ =>
      externalCalls (events (mainRun fs)) = (constructorCalls env ++ [AxiosGet url])%list
      /\ finalState (mainRun fs) = fs
  | Ok b =>
      match value (applyFilter (Some b) filterToApply textToApply colorForText fs) with
      | Ok (Some processed) =>
          externalCalls (events (mainRun fs))
          = (constructorCalls env
             ++ AxiosGet url
                :: externalCalls
                     (events (save outputDirectory filterToApply textToApply processed
                                fs)))%list
          /\ finalState (mainRun fs)
             = finalState (save outputDirectory filterToApply textToApply processed fs)
      | _ =>
          externalCalls (events (mainRun fs))
          = (constructorCalls env ++ [AxiosGet url])%list
          /\ finalState (mainRun fs) = fs
      end
  end.
Proof.
  intros Hfile Hdid Hurl Hne filterToApply textToApply colorForText outputDirectory.
  assert (Hlog : forall msg, quietly (emit FS (LoggerLog msg)) fs (fun _ => True))
    by (intros msg; now apply quietly_emit).
  unfold main.
  skip_quiet (Hlog "Starting image processing script (Ocean C2D enhanced)...").
  match goal with
  | |- context [bind FS ?m ?k fs] =>
      destruct (runs_then m k fs _ _ (oceanPhase_runs fs)) as (oc & _ & E1 & E2 & _);
      rewrite ?E1, ?E2; clear E1 E2
  end.
  do 8 match goal with
       | |- context [bind FS (emit FS (LoggerLog ?msg)) _ fs] => skip_quiet (Hlog msg)
       end.
  fold filterToApply textToApply colorForText outputDirectory.
  destruct (getImageBuffer_from_url oc fs url Hfile Hdid Hurl Hne) as (l & E & Hl).
  destruct (axios_get url) as [b|e]; unfold bind; rewrite E; cbv beta iota.
  - destruct (applyFilter_quiet (Some b) filterToApply textToApply colorForText fs)
      as (l1 & r1 & E1 & Hl1).
    rewrite E1. cbv beta iota. unfold value at 1. cbn [snd].
    destruct r1 as [processed|].
    + destruct (save outputDirectory filterToApply textToApply processed fs)
        as [[l2 fs2] r2].
      unfold events, finalState. cbn [fst snd].
      now rewrite !externalCalls_app, Hl, Hl1.
    + unfold emit, events, finalState. cbn [fst snd].
      rewrite !externalCalls_app, Hl, Hl1. now split.
  - unfold emit, events, finalState. cbn [fst snd].
    rewrite !externalCalls_app, Hl. now split.
Qed.

End World.

Example parseIntAuto_examples :
  parseIntAuto (Some "137") = Some 137%Z
  /\ parseIntAuto (Some "0x89") = Some 137%Z
  /\ parseIntAuto (Some "-0X1f") = Some (-31)%Z
  /\ parseIntAuto (Some "polygon") = None.
Proof. repeat split. Qed.

Example baseFilename_examples :
  baseFilename (Some "  Blur ") (Some "Hello") = "processed_image_blur_with_text.png"
  /\ baseFilename (Some "../x") None = "processed_image____x.png"
  /\ baseFilename (Some "none") (Some "   ") = "processed_image.png"
  /\ baseFilename (Some (NBSP ++ "none")) (Some (NBSP ++ IDEOGRAPHIC_SPACE))
     = "processed_image.png"
  /\ baseFilename (Some ("blur" ++ A_GRAVE)) None = "processed_image_blur_.png"
  /\ baseFilename None None = "processed_image.png".
Proof. repeat split. Qed.

Example replaceNonAlphaNumeric_examples :
  replaceNonAlphaNumeric "did:op:1234" = "did_op_1234"
  /\ replaceNonAlphaNumeric ("a" ++ A_GRAVE ++ "b" ++ GRINNING_FACE ++ "c") = "a_b__c".
Proof. repeat split. Qed.

Lemma initializeOcean_outcome_witness :
  oceanConfigured envOcean = true
  /\ exists cfg,
       externalCalls
         (events (initializeOcean unit envOcean (fun _ : config.t => Ok demoOcean) tt))
       = [GetInstance cfg]
       /\ value (initializeOcean unit envOcean (fun _ : config.t => Ok demoOcean) tt)
          = Ok (Some demoOcean)
       /\ config.networkNodeUri cfg = "https://node.example.org"
       /\ config.nodeUri cfg = "https://node.example.org"
       /\ config.providerUri cfg = "https://provider.example.org"
       /\ config.chainId cfg = Some 137%Z.
Proof.
  split; [reflexivity|].
  apply (proj2 (proj2 (initializeOcean_outcome unit envOcean
                         (fun _ : config.t => Ok demoOcean) tt))).
  reflexivity.
Defined.

Lemma downloadOceanAsset_result_witness :
  value (downloadOceanAsset unit writes answersOneByte (Some demoOcean) "did:op:1234"
           "/data/outputs/temp_downloads/did_op_1234.tmp" tt)
  = Ok (Some "/data/outputs/temp_downloads/did_op_1234.tmp")
  /\ exists oc d sv pr fo rest url data,
       Some demoOcean = Some oc
       /\ ocean.assets_resolve oc "did:op:1234" = Ok (Some d)
       /\ chosenService d = Some sv
       /\ ocean.provider oc = Some pr
       /\ provider.getEncryptedFiles pr (ddo.id d) (service.id sv) publisherAddress
          = Ok (Some (fo :: rest))
       /\ fileObject.url fo = Some url /\ url <> EmptyString
       /\ answersOneByte url = Ok data
       /\ writes tt "/data/outputs/temp_downloads/did_op_1234.tmp" data
          = (finalState
               (downloadOceanAsset unit writes answersOneByte (Some demoOcean)
                  "did:op:1234" "/data/outputs/temp_downloads/did_op_1234.tmp" tt),
             Ok tt)
       /\ externalCalls
            (events
               (downloadOceanAsset unit writes answersOneByte (Some demoOcean)
                  "did:op:1234" "/data/outputs/temp_downloads/did_op_1234.tmp" tt))
          = [AssetsResolve "did:op:1234";
             GetEncryptedFiles (ddo.id d) (service.id sv);
             AxiosGet url;
             FsWriteFile "/data/outputs/temp_downloads/did_op_1234.tmp"].
Proof.
  split; [reflexivity|].
  apply (proj2 (downloadOceanAsset_result unit writes answersOneByte (Some demoOcean)
                  "did:op:1234" "/data/outputs/temp_downloads/did_op_1234.tmp" tt)
           "/data/outputs/temp_downloads/did_op_1234.tmp").
  reflexivity.
Defined.

Lemma getImageBuffer_asset_buffer_witness :
  exists fs1 : unit,
    (fs1 = tt
     \/ makesDir tt (joinWithSlash "/data/outputs" "temp_downloads") = (fs1, Ok tt))
    /\ value (downloadOceanAsset unit writes answersOneByte (Some demoOcean)
                "did:op:1234"
                (joinWithSlash (joinWithSlash "/data/outputs" "temp_downloads")
                   "did_op_1234.tmp") fs1)
       = Ok (Some (joinWithSlash (joinWithSlash "/data/outputs" "temp_downloads")
                     "did_op_1234.tmp"))
    /\ readsEmpty
         (finalState
            (downloadOceanAsset unit writes answersOneByte (Some demoOcean)
               "did:op:1234"
               (joinWithSlash (joinWithSlash "/data/outputs" "temp_downloads")
                  "did_op_1234.tmp") fs1))
         (joinWithSlash (joinWithSlash "/data/outputs" "temp_downloads")
            "did_op_1234.tmp")
       = Ok [].
Proof.
  apply (getImageBuffer_asset_buffer unit nothingExists readsEmpty writes makesDir
           answersOneByte joinWithSlash envAssetOnly demoOcean tt [] eq_refl eq_refl).
  reflexivity.
Defined.

Lemma applyFilter_outcome_witness :
  exists input md filter overlay,
    Some [Byte.x00] = Some input
    /\ reports400x300 input = Ok md
    /\ returnsInput input (filter ++ overlay) = Ok [Byte.x00]
    /\ In filter filterChoices
    /\ (overlay = []
        \/ exists w h text,
             overlay = [composite (overlayText Spec.stubOtherToString w h text "#00DD00") 0 0]
             /\ Some "Hi" = Some text /\ trim text <> EmptyString
             /\ imageMetadata.width md = Some w /\ w <> 0%Z
             /\ imageMetadata.height md = Some h /\ h <> 0%Z).
Proof.
  apply (proj2 (proj2 (proj2 (proj2 (proj2
           (applyFilter_outcome unit reports400x300 returnsInput Spec.stubOtherToString
              (Some [Byte.x00]) (Some " BLUR ") (Some "Hi") "#00DD00" tt)))))
           [Byte.x00]).
  reflexivity.
Defined.

Lemma main_missing_file_witness :
  value (main unit nothingExists readsEmpty writes makesDir answersOneByte joinWithSlash
           envOceanAndFile (fun _ : config.t => Ok demoOcean) reports400x300 returnsInput
           "2026-01-01T00:00:00.000Z" Spec.stubOtherToString tt) = Ok tt
  /\ externalCalls
       (events (main unit nothingExists readsEmpty writes makesDir answersOneByte
                  joinWithSlash envOceanAndFile (fun _ : config.t => Ok demoOcean)
                  reports400x300 returnsInput
                  "2026-01-01T00:00:00.000Z" Spec.stubOtherToString tt))
     = [GetInstance (oceanConfig envOceanAndFile)].
Proof.
  apply (main_missing_file unit nothingExists readsEmpty writes makesDir answersOneByte
           joinWithSlash envOceanAndFile (fun _ : config.t => Ok demoOcean)
           reports400x300 returnsInput
           "2026-01-01T00:00:00.000Z" Spec.stubOtherToString tt); reflexivity.
Defined.

Lemma main_asset_without_instance_witness :
  value (main unit nothingExists readsEmpty writes makesDir answersOneByte joinWithSlash
           envOceanAndAsset noInstance reports400x300 returnsInput
           "2026-01-01T00:00:00.000Z" Spec.stubOtherToString tt) = Ok tt
  /\ externalCalls
       (events (main unit nothingExists readsEmpty writes makesDir answersOneByte
                  joinWithSlash envOceanAndAsset noInstance reports400x300 returnsInput
                  "2026-01-01T00:00:00.000Z" Spec.stubOtherToString tt))
     = [GetInstance (oceanConfig envOceanAndAsset)].
Proof.
  apply (main_asset_without_instance unit nothingExists readsEmpty writes makesDir
           answersOneByte joinWithSlash envOceanAndAsset noInstance reports400x300
           returnsInput "2026-01-01T00:00:00.000Z" Spec.stubOtherToString tt);
    reflexivity.
Defined.

Lemma main_from_url_witness :
  externalCalls
    (events (main unit nothingExists readsEmpty writes makesDir answersOneByte
               joinWithSlash envOceanAndUrl (fun _ : config.t => Ok demoOcean)
               reports400x300 returnsInput
               "2026-01-01T00:00:00.000Z" Spec.stubOtherToString tt))
  = GetInstance (oceanConfig envOceanAndUrl)
    :: AxiosGet "https://example.org/image.png"
    :: externalCalls
         (events (saveOutputs unit nothingExists writes makesDir joinWithSlash
                    envOceanAndUrl "2026-01-01T00:00:00.000Z" "/data/outputs" None None
                    [Byte.x00] tt))
  /\ finalState (main unit nothingExists readsEmpty writes makesDir answersOneByte
                   joinWithSlash envOceanAndUrl (fun _ : config.t => Ok demoOcean)
                   reports400x300 returnsInput
                   "2026-01-01T00:00:00.000Z" Spec.stubOtherToString tt)
     = finalState
         (saveOutputs unit nothingExists writes makesDir joinWithSlash envOceanAndUrl
            "2026-01-01T00:00:00.000Z" "/data/outputs" None None [Byte.x00] tt).
Proof.
  apply (main_from_url unit nothingExists readsEmpty writes makesDir answersOneByte
           joinWithSlash envOceanAndUrl (fun _ : config.t => Ok demoOcean)
           reports400x300 returnsInput
           "2026-01-01T00:00:00.000Z" Spec.stubOtherToString tt
           "https://example.org/image.png" eq_refl eq_refl eq_refl).
  discriminate.
Defined.

(** A run without the SDK: the image is fetched from the URL, the
    directory is made, and the image and the manifest are written. *)
Example main_from_url_only_run :
  externalCalls
    (events (main unit nothingExists readsEmpty writes makesDir answersOneByte
               joinWithSlash envUrlOnly noInstance reports400x300 returnsInput
               "2026-01-01T00:00:00.000Z" Spec.stubOtherToString tt))
  = [AxiosGet "https://example.org/image.png";
     FsMkdir "/data/outputs";
     FsWriteFile "/data/outputs/processed_image.png";
     FsWriteFile "/data/outputs/results.json"].
Proof. reflexivity. Qed.

(** A complete run: the SDK is initialised, the image is fetched from the
    URL, the directory is made, and the image and the manifest are
    written. *)
Example main_from_url_run :
  externalCalls
    (events (main unit nothingExists readsEmpty writes makesDir answersOneByte
               joinWithSlash envOceanAndUrl (fun _ : config.t => Ok demoOcean)
               reports400x300 returnsInput
               "2026-01-01T00:00:00.000Z" Spec.stubOtherToString tt))
  = [GetInstance (oceanConfig envOceanAndUrl);
     AxiosGet "https://example.org/image.png";
     FsMkdir "/data/outputs";
     FsWriteFile "/data/outputs/processed_image.png";
     FsWriteFile "/data/outputs/results.json"].
Proof. reflexivity. Qed.

End ScriptExtras.
